(** * Global Stock Analyzer: the view controller of [frontend/js/app.js]

    A shallow embedding of the browser script.  The document and the three
    module-level variables form one record, [Page]; every handler is a
    function on pages.  An [async] function is cut at its [await]s: the part
    before the request is sent ([..._begin]) and the part that runs when the
    request settles ([..._resume]) are separate page transformers, so that
    other handlers can be run in between.  What the network answers is an
    argument of the resuming part.  Everything the script makes observable
    outside the document (alerts, console diagnostics, requests, calls into
    the chart library) is appended to the page's [log]. *)

From Stdlib Require Import String Ascii List Bool Arith ZArith Lia Floats.
Import ListNotations.
Open Scope list_scope.
Open Scope string_scope.

(** ** Strings *)

Module Str.

Definition of_bytes (l : list nat) : string :=
  fold_right (fun n s => String (ascii_of_nat n) s) EmptyString l.

(** The double quote, and an attribute value between double quotes. *)
Definition dq : string := of_bytes [34].
Definition quoted (s : string) : string := dq ++ s ++ dq.

(** [!s] for a string [s]: only the empty string is falsy. *)
Definition is_empty (s : string) : bool :=
  match s with EmptyString => true | String _ _ => false end.

Fixpoint rev (s : string) : string :=
  match s with
  | EmptyString => EmptyString
  | String c r => rev r ++ String c EmptyString
  end.

(** [strip p s] is what follows [p] in [s] when [s] starts with [p]. *)
Fixpoint strip (p s : string) : option string :=
  match p, s with
  | EmptyString, _ => Some s
  | String a p', String b s' => if Ascii.eqb a b then strip p' s' else None
  | String _ _, EmptyString => None
  end.

(** ECMAScript's WhiteSpace and LineTerminator code points, in UTF-8:
    TAB, LF, VT, FF, CR, SP, U+00A0, U+1680, U+2000 to U+200A, U+2028,
    U+2029, U+202F, U+205F, U+3000 and U+FEFF. *)
Definition white_space : list string :=
  map of_bytes
    [ [9]; [10]; [11]; [12]; [13]; [32]; [194; 160]; [225; 154; 128];
      [226; 128; 128]; [226; 128; 129]; [226; 128; 130]; [226; 128; 131];
      [226; 128; 132]; [226; 128; 133]; [226; 128; 134]; [226; 128; 135];
      [226; 128; 136]; [226; 128; 137]; [226; 128; 138]; [226; 128; 168];
      [226; 128; 169]; [226; 128; 175]; [226; 129; 159]; [227; 128; 128];
      [239; 187; 191] ]%list.

Fixpoint strip_any (ps : list string) (s : string) : option string :=
  match ps with
  | [] => None
  | p :: ps' => match strip p s with Some r => Some r | None => strip_any ps' s end
  end%list.

Fixpoint drop_leading (ps : list string) (fuel : nat) (s : string) : string :=
  match fuel with
  | O => s
  | S fuel' =>
      match strip_any ps s with
      | Some r => drop_leading ps fuel' r
      | None => s
      end
  end.

Definition trimStart (s : string) : string :=
  drop_leading white_space (String.length s) s.

Definition trimEnd (s : string) : string :=
  rev (drop_leading (map rev white_space) (String.length s) (rev s)).

(** [String.prototype.trim]. *)
Definition trim (s : string) : string := trimEnd (trimStart s).

Definition lower (c : ascii) : ascii :=
  let n := nat_of_ascii c in
  if (65 <=? n)%nat && (n <=? 90)%nat then ascii_of_nat (n + 32) else c.

(** [String.prototype.toLowerCase] on the ASCII letters; the bytes of other
    characters are kept (the case mapping of letters outside ASCII is not
    reproduced). *)
Fixpoint toLowerCase (s : string) : string :=
  match s with
  | EmptyString => EmptyString
  | String c r => String (lower c) (toLowerCase r)
  end.

Definition hex_digit (n : nat) : ascii :=
  nth n (list_ascii_of_string "0123456789ABCDEF") "0"%char.

(** The characters [encodeURIComponent] leaves alone. *)
Definition unreserved (c : ascii) : bool :=
  let n := nat_of_ascii c in
  ((65 <=? n)%nat && (n <=? 90)%nat)
  || ((97 <=? n)%nat && (n <=? 122)%nat)
  || ((48 <=? n)%nat && (n <=? 57)%nat)
  || existsb (Ascii.eqb c) (list_ascii_of_string "-_.!~*'()").

(** [encodeURIComponent]: every other byte of the UTF-8 form is escaped. *)
Fixpoint encodeURIComponent (s : string) : string :=
  match s with
  | EmptyString => EmptyString
  | String c r =>
      let n := nat_of_ascii c in
      (if unreserved c then String c EmptyString
       else String "%"%char
              (String (hex_digit (n / 16))
                 (String (hex_digit (n mod 16)) EmptyString)))
      ++ encodeURIComponent r
  end.

End Str.

(** ** Numbers and rendered text

    A JavaScript number is an IEEE 754 binary64 value: [float].  The text a
    number turns into ([Number.prototype.toString], [toFixed],
    [toLocaleString]) is not computed; a rendered string is kept as the
    sequence of its pieces, the literal chunks of the template apart from the
    substituted values.  Indentation and line breaks between the tags of a
    template literal are not reproduced. *)

Inductive frag : Type :=
| Lit (text : string)      (* a chunk of the template, or a string literal *)
| Sub (text : string)      (* ${e}, where e is a string of a response *)
| Num (n : float)          (* ${e}, where e is a number *)
| Fixed2 (n : float)       (* e.toFixed(2) *)
| Locale (n : float).      (* e.toLocaleString() *)

Definition html : Type := list frag.

(** [!!n] for a number: [0], [-0] and [NaN] are falsy. *)
Definition truthy (n : float) : bool := negb (is_zero n || is_nan n).

(** [v ? ... : ...] for a numeric field that may be missing (or [null]). *)
Definition present (v : option float) : bool :=
  match v with
  | Some n => truthy n
  | None => false
  end.

(** ** The records of the API

    A parsed body is a record of the shape the API documents.  The fields
    whose absence the script itself meets are optional here: those it tests
    ([trending_stocks], [news], the five optional metrics) and those whose
    absence makes it throw after it has already changed the page (the [data]
    of a chart, [comparison] and [best_performer]).  The other fields are
    taken as present with their type; nothing is derived below from a string
    field being there rather than null. *)

Module Trending.
Record stock : Type := { symbol : string; name : string; change : float }.
Record t : Type := { trending_stocks : option (list stock) }.
End Trending.

Module Analysis.
Record t : Type := {
  symbol : string;
  company_name : string;
  exchange : string;
  decision : string;
  explanation : string;
  sentiment_score : float;
  price_change_6m : float
}.
End Analysis.

Module Metrics.
Record t : Type := {
  current_price : float;
  currency : string;
  day_change : float;
  day_change_pct : float;
  high_52w : option float;
  low_52w : option float;
  market_cap : option float;
  volume : option float;
  pe_ratio : option float
}.
End Metrics.

Module Series.
Record point : Type := { date : string; price : float }.
Record t : Type := { data : option (list point) }.
End Series.

Module News.
Record item : Type := { headline : string; sentiment : string }.
Record t : Type := { news : option (list item) }.
End News.

Module Comparison.
Record summary : Type := {
  symbol : string;
  decision : string;
  current_price : float;
  currency : string;
  price_change_6m : float;
  sentiment_score : float
}.
Record best : Type := { best_symbol : string; best_change : float; best_decision : string }.
Record t : Type := { comparison : option (list summary); best_performer : option best }.
End Comparison.

(** ** What a request comes back with

    [fetch] either rejects (no response: [None]) or resolves to a response
    with its [ok] flag; [response.json()] either rejects (the body does not
    parse: [json = None]) or resolves to the parsed record. *)

Record Response (A : Type) : Type := { ok : bool; json : option A }.
Arguments ok {A} _.
Arguments json {A} _.

Definition fetched (A : Type) : Type := option (Response A).

(** [await fetch(...)] followed by [await response.json()], with no look at
    [ok]: [None] when either of the two throws. *)
Definition awaited {A : Type} (r : fetched A) : option A :=
  match r with
  | Some resp => json resp
  | None => None
  end.

(** ** The page *)

Inductive Event : Type :=
| Alert (message : string)
| ConsoleError (message : string)
| Fetch (method url : string) (stocks : option (list string))
| ChartDestroy (id : nat)
| ChartCreate (id : nat)
| ScrollIntoView (element : string).

(** A button with its [.btn-text] and [.btn-loader] children. *)
Record Button : Type := {
  disabled : bool;
  btn_text_display : string;
  btn_loader_display : string
}.

(** What [displayResults] writes. *)
Record Results : Type := {
  resultsSection_display : string;
  decisionBanner_className : string;
  decision_icon : string;
  decision_title : string;
  decision_subtitle : string;
  explanationContent : string
}.

(** An instance made by [new Chart(...)]; [live] until [destroy()]. *)
Record Chart : Type := {
  live : bool;
  labels : list string;
  series : list float
}.

(** The elements whose [innerHTML] the script assigns. *)
Inductive container : Type :=
| trendingStocks
| metricsContent
| newsContent
| comparisonResults.

Definition container_eqb (a b : container) : bool :=
  match a, b with
  | trendingStocks, trendingStocks
  | metricsContent, metricsContent
  | newsContent, newsContent
  | comparisonResults, comparisonResults => true
  | _, _ => false
  end.

Record Page : Type := {
  (* let currentChart = null; let currentSymbol = null; let currentCompanyName = null; *)
  currentChart : option nat;
  currentSymbol : option string;
  currentCompanyName : option string;
  (* the value of the input fields *)
  stockInput : string;
  compareInput1 : string;
  compareInput2 : string;
  compareInput3 : string;
  compareInput4 : string;
  (* the period button carrying the class 'active', by its data-period *)
  activePeriod : option string;
  analyzeBtn : Button;
  compareBtn : Button;
  results : Results;
  innerHTML : container -> html;
  comparisonResults_display : string;
  (* every chart instance constructed so far, by identifier *)
  charts : list Chart;
  log : list Event
}.

Definition set_currentChart (v : option nat) (s : Page) : Page :=
  {| currentChart := v; currentSymbol := currentSymbol s;
     currentCompanyName := currentCompanyName s; stockInput := stockInput s;
     compareInput1 := compareInput1 s; compareInput2 := compareInput2 s;
     compareInput3 := compareInput3 s; compareInput4 := compareInput4 s;
     activePeriod := activePeriod s; analyzeBtn := analyzeBtn s; compareBtn := compareBtn s;
     results := results s; innerHTML := innerHTML s;
     comparisonResults_display := comparisonResults_display s; charts := charts s;
     log := log s |}.

Definition set_currentSymbol (v : option string) (s : Page) : Page :=
  {| currentChart := currentChart s; currentSymbol := v;
     currentCompanyName := currentCompanyName s; stockInput := stockInput s;
     compareInput1 := compareInput1 s; compareInput2 := compareInput2 s;
     compareInput3 := compareInput3 s; compareInput4 := compareInput4 s;
     activePeriod := activePeriod s; analyzeBtn := analyzeBtn s; compareBtn := compareBtn s;
     results := results s; innerHTML := innerHTML s;
     comparisonResults_display := comparisonResults_display s; charts := charts s;
     log := log s |}.

Definition set_currentCompanyName (v : option string) (s : Page) : Page :=
  {| currentChart := currentChart s; currentSymbol := currentSymbol s;
     currentCompanyName := v; stockInput := stockInput s; compareInput1 := compareInput1 s;
     compareInput2 := compareInput2 s; compareInput3 := compareInput3 s;
     compareInput4 := compareInput4 s; activePeriod := activePeriod s;
     analyzeBtn := analyzeBtn s; compareBtn := compareBtn s; results := results s;
     innerHTML := innerHTML s; comparisonResults_display := comparisonResults_display s;
     charts := charts s; log := log s |}.

Definition set_stockInput (v : string) (s : Page) : Page :=
  {| currentChart := currentChart s; currentSymbol := currentSymbol s;
     currentCompanyName := currentCompanyName s; stockInput := v;
     compareInput1 := compareInput1 s; compareInput2 := compareInput2 s;
     compareInput3 := compareInput3 s; compareInput4 := compareInput4 s;
     activePeriod := activePeriod s; analyzeBtn := analyzeBtn s; compareBtn := compareBtn s;
     results := results s; innerHTML := innerHTML s;
     comparisonResults_display := comparisonResults_display s; charts := charts s;
     log := log s |}.

Definition set_activePeriod (v : option string) (s : Page) : Page :=
  {| currentChart := currentChart s; currentSymbol := currentSymbol s;
     currentCompanyName := currentCompanyName s; stockInput := stockInput s;
     compareInput1 := compareInput1 s; compareInput2 := compareInput2 s;
     compareInput3 := compareInput3 s; compareInput4 := compareInput4 s; activePeriod := v;
     analyzeBtn := analyzeBtn s; compareBtn := compareBtn s; results := results s;
     innerHTML := innerHTML s; comparisonResults_display := comparisonResults_display s;
     charts := charts s; log := log s |}.

Definition set_analyzeBtn (v : Button) (s : Page) : Page :=
  {| currentChart := currentChart s; currentSymbol := currentSymbol s;
     currentCompanyName := currentCompanyName s; stockInput := stockInput s;
     compareInput1 := compareInput1 s; compareInput2 := compareInput2 s;
     compareInput3 := compareInput3 s; compareInput4 := compareInput4 s;
     activePeriod := activePeriod s; analyzeBtn := v; compareBtn := compareBtn s;
     results := results s; innerHTML := innerHTML s;
     comparisonResults_display := comparisonResults_display s; charts := charts s;
     log := log s |}.

Definition set_compareBtn (v : Button) (s : Page) : Page :=
  {| currentChart := currentChart s; currentSymbol := currentSymbol s;
     currentCompanyName := currentCompanyName s; stockInput := stockInput s;
     compareInput1 := compareInput1 s; compareInput2 := compareInput2 s;
     compareInput3 := compareInput3 s; compareInput4 := compareInput4 s;
     activePeriod := activePeriod s; analyzeBtn := analyzeBtn s; compareBtn := v;
     results := results s; innerHTML := innerHTML s;
     comparisonResults_display := comparisonResults_display s; charts := charts s;
     log := log s |}.

Definition set_results (v : Results) (s : Page) : Page :=
  {| currentChart := currentChart s; currentSymbol := currentSymbol s;
     currentCompanyName := currentCompanyName s; stockInput := stockInput s;
     compareInput1 := compareInput1 s; compareInput2 := compareInput2 s;
     compareInput3 := compareInput3 s; compareInput4 := compareInput4 s;
     activePeriod := activePeriod s; analyzeBtn := analyzeBtn s; compareBtn := compareBtn s;
     results := v; innerHTML := innerHTML s;
     comparisonResults_display := comparisonResults_display s; charts := charts s;
     log := log s |}.

Definition set_comparisonResults_display (v : string) (s : Page) : Page :=
  {| currentChart := currentChart s; currentSymbol := currentSymbol s;
     currentCompanyName := currentCompanyName s; stockInput := stockInput s;
     compareInput1 := compareInput1 s; compareInput2 := compareInput2 s;
     compareInput3 := compareInput3 s; compareInput4 := compareInput4 s;
     activePeriod := activePeriod s; analyzeBtn := analyzeBtn s; compareBtn := compareBtn s;
     results := results s; innerHTML := innerHTML s; comparisonResults_display := v;
     charts := charts s; log := log s |}.

Definition set_charts (v : list Chart) (s : Page) : Page :=
  {| currentChart := currentChart s; currentSymbol := currentSymbol s;
     currentCompanyName := currentCompanyName s; stockInput := stockInput s;
     compareInput1 := compareInput1 s; compareInput2 := compareInput2 s;
     compareInput3 := compareInput3 s; compareInput4 := compareInput4 s;
     activePeriod := activePeriod s; analyzeBtn := analyzeBtn s; compareBtn := compareBtn s;
     results := results s; innerHTML := innerHTML s;
     comparisonResults_display := comparisonResults_display s; charts := v; log := log s |}.

(** [document.getElementById(c).innerHTML = v]. *)
Definition set_innerHTML (c : container) (v : html) (s : Page) : Page :=
  {| currentChart := currentChart s; currentSymbol := currentSymbol s;
     currentCompanyName := currentCompanyName s; stockInput := stockInput s;
     compareInput1 := compareInput1 s; compareInput2 := compareInput2 s;
     compareInput3 := compareInput3 s; compareInput4 := compareInput4 s;
     activePeriod := activePeriod s; analyzeBtn := analyzeBtn s; compareBtn := compareBtn s;
     results := results s;
     innerHTML := (fun c' => if container_eqb c c' then v else innerHTML s c');
     comparisonResults_display := comparisonResults_display s; charts := charts s;
     log := log s |}.

(** Something observable happens. *)
Definition emit (ev : Event) (s : Page) : Page :=
  {| currentChart := currentChart s; currentSymbol := currentSymbol s;
     currentCompanyName := currentCompanyName s; stockInput := stockInput s;
     compareInput1 := compareInput1 s; compareInput2 := compareInput2 s;
     compareInput3 := compareInput3 s; compareInput4 := compareInput4 s;
     activePeriod := activePeriod s; analyzeBtn := analyzeBtn s; compareBtn := compareBtn s;
     results := results s; innerHTML := innerHTML s;
     comparisonResults_display := comparisonResults_display s; charts := charts s;
     log := (log s ++ [ev])%list |}.

(** The button while a request is in flight, and as the [finally] blocks
    leave it. *)
Definition loading : Button :=
  {| disabled := true; btn_text_display := "none"; btn_loader_display := "inline-block" |}.

Definition idle : Button :=
  {| disabled := false; btn_text_display := "inline"; btn_loader_display := "none" |}.

(** The document as it is when the script starts: the three variables are
    [null], no chart exists and nothing has happened yet.  The markup is not
    part of the sources; it is taken with empty containers and fields, and
    buttons that are enabled and carry no inline style. *)
Definition freshPage : Page :=
  {| currentChart := None; currentSymbol := None; currentCompanyName := None;
     stockInput := ""; compareInput1 := ""; compareInput2 := "";
     compareInput3 := ""; compareInput4 := ""; activePeriod := None;
     analyzeBtn := {| disabled := false; btn_text_display := ""; btn_loader_display := "" |};
     compareBtn := {| disabled := false; btn_text_display := ""; btn_loader_display := "" |};
     results := {| resultsSection_display := ""; decisionBanner_className := "";
                   decision_icon := ""; decision_title := ""; decision_subtitle := "";
                   explanationContent := "" |};
     innerHTML := fun _ => [];
     comparisonResults_display := "";
     charts := [];
     log := [] |}.

Definition API_BASE : string := "http://localhost:8000/api".

(** ** Literals of the script

    The emoji literals are kept byte for byte as the source file has them. *)

Definition q : string -> string := Str.quoted.

Definition icon_fire : string := Str.of_bytes [239; 163; 191; 195; 188; 195; 174; 226; 128; 162].
Definition icon_chart_up : string := Str.of_bytes [239; 163; 191; 195; 188; 195; 172; 195; 160].
Definition icon_chart_down : string := Str.of_bytes [239; 163; 191; 195; 188; 195; 172; 195; 162].
Definition icon_pause : string :=
  Str.of_bytes [226; 128; 154; 195; 168; 226; 136; 143; 195; 148; 226; 136; 143; 195; 168].
Definition icon_info : string :=
  Str.of_bytes [226; 128; 154; 195; 145; 207; 128; 195; 148; 226; 136; 143; 195; 168].
Definition icon_trophy : string := Str.of_bytes [239; 163; 191; 195; 188; 195; 168; 195; 156].
Definition rupee : string := Str.of_bytes [226; 128; 154; 195; 135; 207; 128].

(** ** Trending stocks *)

Definition trending_card (stock : Trending.stock) : html :=
  [ Lit ("<div class=" ++ q "trending-card" ++ " onclick=" ++ Str.dq ++ "quickAnalyze('");
    Sub (Trending.symbol stock); Lit "', '"; Sub (Trending.name stock);
    Lit ("')" ++ Str.dq ++ ">");
    Lit ("<h4>" ++ icon_fire ++ " "); Sub (Trending.name stock); Lit "</h4>";
    Lit ("<div class=" ++ q "trending-change" ++ ">+"); Num (Trending.change stock);
    Lit "%</div>";
    Lit ("<p style=" ++ q "margin-top: 0.5rem; color: #6b7280; font-size: 0.9rem;" ++ ">");
    Sub (Trending.symbol stock); Lit "</p>";
    Lit "</div>" ].

Definition no_trending : html :=
  [ Lit ("<p style=" ++ q "text-align: center; color: #6b7280;" ++ ">No trending stocks available</p>") ].

Definition failed_trending : html :=
  [ Lit ("<p style=" ++ q "text-align: center; color: #ef4444;" ++ ">Failed to load trending stocks</p>") ].

Definition loadTrendingStocks_begin (s : Page) : Page :=
  emit (Fetch "GET" (API_BASE ++ "/trending") None) s.

Definition loadTrendingStocks_resume (r : fetched Trending.t) (s : Page) : Page :=
  match awaited r with
  | Some data =>
      match Trending.trending_stocks data with
      | Some stocks =>
          if (0 <? List.length stocks)%nat
          then set_innerHTML trendingStocks (flat_map trending_card stocks) s
          else set_innerHTML trendingStocks no_trending s
      | None => set_innerHTML trendingStocks no_trending s
      end
  | None =>
      let s := emit (ConsoleError "Error loading trending stocks:") s in
      set_innerHTML trendingStocks failed_trending s
  end.

Definition loadTrendingStocks (r : fetched Trending.t) (s : Page) : Page :=
  loadTrendingStocks_resume r (loadTrendingStocks_begin s).

(** ** Display of an analysis *)

Definition decision_icon_of (decision : string) : string :=
  if decision =? "BUY" then icon_chart_up
  else if decision =? "SELL" then icon_chart_down
  else icon_pause.

Definition displayResults (data : Analysis.t) (s : Page) : Page :=
  set_results
    {| resultsSection_display := "block";
       decisionBanner_className :=
         "decision-banner decision-" ++ Str.toLowerCase (Analysis.decision data);
       decision_icon := decision_icon_of (Analysis.decision data);
       decision_title := Analysis.decision data ++ " - " ++ Analysis.symbol data;
       decision_subtitle := Analysis.company_name data ++ " | " ++ Analysis.exchange data;
       explanationContent := Analysis.explanation data |}
    s.

(** ** Metrics *)

Definition sentimentPercent (sentimentScore : float) : float :=
  (((sentimentScore + 1) / 2) * 100)%float.

Definition metric_label (label : string) : frag :=
  Lit ("<span class=" ++ q "metric-label" ++ ">" ++ label ++ "</span>").

(** One [metric-item] row; [cls] is what follows [metric-value] in the class
    of the value. *)
Definition metric_item (label cls : string) (value : html) : html :=
  ([ Lit ("<div class=" ++ q "metric-item" ++ ">");
     metric_label label;
     Lit ("<span class=" ++ q ("metric-value" ++ cls) ++ ">") ]
   ++ value ++ [ Lit "</span></div>" ])%list.

(** [x >= 0 ? ' metric-positive' : ' metric-negative'] and [x >= 0 ? '+' : '']. *)
Definition change_class (x : float) : string :=
  if (0 <=? x)%float then " metric-positive" else " metric-negative".

Definition plus_sign (x : float) : html :=
  if (0 <=? x)%float then [Lit "+"] else [].

(** [v ? `row` : '']. *)
Definition optional_row (v : option float) (row : float -> html) : html :=
  match v with
  | Some n => if truthy n then row n else []
  | None => []
  end.

Definition formatNumber (num : float) : html := [Locale num].

Definition formatMarketCap (num : float) : html :=
  if (1e12 <=? num)%float then [Lit rupee; Fixed2 (num / 1e12)%float; Lit "T"]
  else if (1e9 <=? num)%float then [Lit rupee; Fixed2 (num / 1e9)%float; Lit "B"]
  else if (1e6 <=? num)%float then [Lit rupee; Fixed2 (num / 1e6)%float; Lit "M"]
  else [Lit rupee; Locale num].

Definition metrics_block (data : Metrics.t) (analysisData : Analysis.t) : html :=
  let sentimentScore := Analysis.sentiment_score analysisData in
  List.concat
    [ metric_item "Current Price" ""
        [Num (Metrics.current_price data); Lit " "; Sub (Metrics.currency data)];
      metric_item "Today's Change" (change_class (Metrics.day_change data))
        (List.concat
           [ plus_sign (Metrics.day_change data); [Num (Metrics.day_change data); Lit " ("];
             plus_sign (Metrics.day_change_pct data);
             [Num (Metrics.day_change_pct data); Lit "%)"] ]);
      metric_item "6-Month Change" (change_class (Analysis.price_change_6m analysisData))
        (List.concat
           [ plus_sign (Analysis.price_change_6m analysisData);
             [Num (Analysis.price_change_6m analysisData); Lit "%"] ]);
      optional_row (Metrics.high_52w data) (fun v =>
        metric_item "52-Week High" "" [Num v; Lit " "; Sub (Metrics.currency data)]);
      optional_row (Metrics.low_52w data) (fun v =>
        metric_item "52-Week Low" "" [Num v; Lit " "; Sub (Metrics.currency data)]);
      optional_row (Metrics.market_cap data) (fun v =>
        metric_item "Market Cap" "" (formatMarketCap v));
      optional_row (Metrics.volume data) (fun v =>
        metric_item "Volume" "" (formatNumber v));
      optional_row (Metrics.pe_ratio data) (fun v =>
        metric_item "P/E Ratio" "" [Fixed2 v]);
      metric_item "Sentiment Score" "" [Fixed2 sentimentScore];
      [ Lit ("<div class=" ++ q "sentiment-bar" ++ ">");
        Lit ("<div class=" ++ q "sentiment-fill" ++ " style=" ++ Str.dq ++ "width: ");
        Num (sentimentPercent sentimentScore);
        Lit ("%" ++ Str.dq ++ "></div>");
        Lit "</div>" ] ].

Definition metrics_loader : html :=
  [ Lit ("<div class=" ++ q "metric-loader" ++ "><span class=" ++ q "spinner"
         ++ "></span> Loading metrics...</div>") ].

Definition failed_metrics : html :=
  [ Lit ("<p style=" ++ q "color: #ef4444;" ++ ">Failed to load metrics</p>") ].

Definition loadMetrics_begin (symbol : string) (s : Page) : Page :=
  let s := set_innerHTML metricsContent metrics_loader s in
  emit (Fetch "GET" (API_BASE ++ "/metrics/" ++ symbol) None) s.

Definition loadMetrics_catch (s : Page) : Page :=
  let s := emit (ConsoleError "Error loading metrics:") s in
  set_innerHTML metricsContent failed_metrics s.

(** When the metrics request has settled: on a parsed body the analysis
    request is sent and the run waits again, holding [data]. *)
Definition loadMetrics_metrics (symbol : string) (r : fetched Metrics.t) (s : Page)
  : Page * option Metrics.t :=
  match awaited r with
  | Some data => (emit (Fetch "GET" (API_BASE ++ "/analyze/" ++ symbol) None) s, Some data)
  | None => (loadMetrics_catch s, None)
  end.

(** When the analysis request has settled. *)
Definition loadMetrics_analysis (data : Metrics.t) (r : fetched Analysis.t) (s : Page) : Page :=
  match awaited r with
  | Some analysisData => set_innerHTML metricsContent (metrics_block data analysisData) s
  | None => loadMetrics_catch s
  end.

(** A whole run, nothing else happening in between. *)
Definition loadMetrics (symbol : string) (r1 : fetched Metrics.t) (r2 : fetched Analysis.t)
    (s : Page) : Page :=
  let '(s1, waiting) := loadMetrics_metrics symbol r1 (loadMetrics_begin symbol s) in
  match waiting with
  | Some data => loadMetrics_analysis data r2 s1
  | None => s1
  end.

(** ** Chart *)

Fixpoint mark_destroyed (id : nat) (l : list Chart) {struct l} : list Chart :=
  match l, id with
  | [], _ => []
  | c :: l', O => {| live := false; labels := labels c; series := series c |} :: l'
  | c :: l', S id' => c :: mark_destroyed id' l'
  end%list.

(** [chart.destroy()]. *)
Definition destroy (id : nat) (s : Page) : Page :=
  let s := set_charts (mark_destroyed id (charts s)) s in
  emit (ChartDestroy id) s.

(** [new Chart(ctx, {...})] with the labels and the price series. *)
Definition new_Chart (dates : list string) (prices : list float) (s : Page) : nat * Page :=
  let id := List.length (charts s) in
  let s := set_charts (charts s ++ [{| live := true; labels := dates; series := prices |}])%list s in
  (id, emit (ChartCreate id) s).

(** [period = '6mo'] as a default parameter. *)
Definition period_or_default (period : option string) : string :=
  match period with
  | Some p => p
  | None => "6mo"
  end.

Definition loadChart_begin (symbol : string) (period : option string) (s : Page) : Page :=
  emit (Fetch "GET" (API_BASE ++ "/chart/" ++ symbol ++ "/" ++ period_or_default period) None) s.

(** From the parsed body on, the function runs without another [await].  A
    body without [data] makes [data.data.map] throw while the arguments of
    [new Chart] are evaluated, that is after the previous chart is gone. *)
Definition loadChart_resume (r : fetched Series.t) (s : Page) : Page :=
  match awaited r with
  | Some data =>
      let s := match currentChart s with
               | Some previous => destroy previous s
               | None => s
               end in
      match Series.data data with
      | Some points =>
          let '(id, s) := new_Chart (map Series.date points) (map Series.price points) s in
          set_currentChart (Some id) s
      | None => emit (ConsoleError "Error loading chart:") s
      end
  | None => emit (ConsoleError "Error loading chart:") s
  end.

Definition loadChart (symbol : string) (period : option string) (r : fetched Series.t)
    (s : Page) : Page :=
  loadChart_resume r (loadChart_begin symbol period s).

(** ** News *)

Definition news_icon (sentiment : string) : string :=
  if sentiment =? "positive" then icon_chart_up
  else if sentiment =? "negative" then icon_chart_down
  else icon_info.

Definition news_item (article : News.item) : html :=
  [ Lit ("<div class=" ++ q "news-item" ++ ">");
    Lit ("<div class=" ++ q "news-headline" ++ ">");
    Lit ("<span class=" ++ q "news-icon" ++ ">"); Lit (news_icon (News.sentiment article));
    Lit "</span>";
    Lit "<span>"; Sub (News.headline article); Lit "</span>";
    Lit "</div>";
    Lit "</div>" ].

Definition news_loader : html :=
  [ Lit ("<div class=" ++ q "news-loader" ++ "><span class=" ++ q "spinner"
         ++ "></span> Loading news...</div>") ].

Definition no_news : html :=
  [ Lit ("<div style=" ++ q "text-align: center; padding: 2rem; color: var(--text-muted);"
         ++ ">No recent news available for this stock</div>") ].

Definition failed_news : html :=
  [ Lit ("<div style=" ++ q "text-align: center; padding: 2rem; color: var(--danger-text);"
         ++ ">Failed to load news</div>") ].

Definition loadNews_begin (companyName : string) (s : Page) : Page :=
  let s := set_innerHTML newsContent news_loader s in
  emit (Fetch "GET" (API_BASE ++ "/news/" ++ Str.encodeURIComponent companyName) None) s.

Definition loadNews_resume (r : fetched News.t) (s : Page) : Page :=
  match awaited r with
  | Some data =>
      match News.news data with
      | Some articles =>
          if (0 <? List.length articles)%nat
          then set_innerHTML newsContent (flat_map news_item articles) s
          else set_innerHTML newsContent no_news s
      | None => set_innerHTML newsContent no_news s
      end
  | None =>
      let s := emit (ConsoleError "Error loading news:") s in
      set_innerHTML newsContent failed_news s
  end.

Definition loadNews (companyName : string) (r : fetched News.t) (s : Page) : Page :=
  loadNews_resume r (loadNews_begin companyName s).

(** ** Stock analysis *)

Definition not_found_message (stockInput : string) : string :=
  "Could not find stock " ++ q stockInput ++ ". Please check the name and try again.".

(** Up to the first [await]: [None] when the function has returned, the
    trimmed query when it waits for the lookup. *)
Definition analyzeStock_begin (s : Page) : Page * option string :=
  let query := Str.trim (stockInput s) in
  if Str.is_empty query then
    (emit (Alert "Please enter a stock name or symbol") s, None)
  else
    let s := set_analyzeBtn loading s in
    let s := emit (Fetch "GET" (API_BASE ++ "/analyze/" ++ Str.encodeURIComponent query) None) s in
    (s, Some query).

(** The body of the [try] from the response on, and the [catch]. *)
Definition analyzeStock_try (query : string) (r : fetched Analysis.t) (s : Page) : Page :=
  let caught (s : Page) : Page :=
    let s := emit (ConsoleError "Error analyzing stock:") s in
    emit (Alert (not_found_message query)) s in
  match r with
  | Some response =>
      if negb (ok response) then caught s
      else
        match json response with
        | Some data =>
            let s := set_currentSymbol (Some (Analysis.symbol data)) s in
            let s := set_currentCompanyName (Some (Analysis.company_name data)) s in
            let s := displayResults data s in
            let s := loadMetrics_begin (Analysis.symbol data) s in
            let s := loadChart_begin (Analysis.symbol data) (Some "6mo") s in
            let s := loadNews_begin (Analysis.company_name data) s in
            emit (ScrollIntoView "resultsSection") s
        | None => caught s
        end
  | None => caught s
  end.

(** When the lookup has settled: [try], [catch], then [finally]. *)
Definition analyzeStock_resume (query : string) (r : fetched Analysis.t) (s : Page) : Page :=
  set_analyzeBtn idle (analyzeStock_try query r s).

(** A whole run, nothing else happening in between. *)
Definition analyzeStock (r : fetched Analysis.t) (s : Page) : Page :=
  let '(s1, waiting) := analyzeStock_begin s in
  match waiting with
  | Some query => analyzeStock_resume query r s1
  | None => s1
  end.

Definition quickAnalyze (symbol name : string) (s : Page) : Page * option string :=
  analyzeStock_begin (set_stockInput symbol s).

(** ** Comparison *)

Definition decision_color (decision : string) : string :=
  if decision =? "BUY" then "var(--success-text)"
  else if decision =? "SELL" then "var(--danger-text)"
  else "var(--warning-text)".

Definition comparison_item (stock : Comparison.summary) : html :=
  let decisionEmoji := decision_icon_of (Comparison.decision stock) in
  let change := Comparison.price_change_6m stock in
  List.concat
    [ [ Lit ("<div class=" ++ q "comparison-item" ++ ">");
        Lit "<h4>"; Sub (Comparison.symbol stock); Lit "</h4>";
        Lit ("<div class=" ++ q "comparison-decision" ++ " style=" ++ Str.dq ++ "color: ");
        Lit (decision_color (Comparison.decision stock)); Lit (Str.dq ++ ">");
        Lit decisionEmoji; Lit " "; Sub (Comparison.decision stock);
        Lit "</div>";
        Lit ("<div style="
             ++ q "margin: 1rem 0; padding: 1rem; background: var(--bg-secondary); border-radius: var(--radius-md);"
             ++ ">");
        Lit ("<p style=" ++ q "margin-bottom: 0.5rem;" ++ "><strong>Price:</strong> ");
        Num (Comparison.current_price stock); Lit " "; Sub (Comparison.currency stock);
        Lit "</p>";
        Lit ("<p style=" ++ q "margin-bottom: 0.5rem;" ++ "><strong>6M Change:</strong> <span class="
             ++ q (if (0 <=? change)%float then "text-success" else "text-danger") ++ ">") ];
      plus_sign change;
      [ Num change; Lit "%</span></p>";
        Lit "<p><strong>Sentiment:</strong> "; Fixed2 (Comparison.sentiment_score stock);
        Lit "</p>";
        Lit "</div>";
        Lit "</div>" ] ].

(** The [winner-banner] part of the template. *)
Definition winner_banner (best : Comparison.best) : html :=
  List.concat
    [ [ Lit ("<div class=" ++ q "winner-banner" ++ ">");
        Lit ("<h4>" ++ icon_trophy ++ " Best Performer</h4>");
        Lit ("<p style=" ++ q "font-size: 1.3rem; font-weight: 600; margin-top: 0.5rem;" ++ ">");
        Sub (Comparison.best_symbol best); Lit " (" ];
      plus_sign (Comparison.best_change best);
      [ Num (Comparison.best_change best); Lit "% | "; Sub (Comparison.best_decision best);
        Lit ")"; Lit "</p>"; Lit "</div>" ] ].

(** The template of [displayComparison]: the grid, then the banner. *)
Definition comparison_block (comparison : list Comparison.summary) (best : Comparison.best)
  : html :=
  List.concat
    [ [ Lit ("<div class=" ++ q "comparison-grid" ++ ">") ];
      flat_map comparison_item comparison;
      [ Lit "</div>" ];
      winner_banner best ].

(** The second component is [false] when the function throws: the container
    is made visible first; then the template is evaluated, where
    [comparison.map] throws a [TypeError] on a body without [comparison] and
    [best.symbol] on a body without [best_performer], so that [innerHTML] is
    not assigned. *)
Definition displayComparison (data : Comparison.t) (s : Page) : Page * bool :=
  let s := set_comparisonResults_display "block" s in
  match Comparison.comparison data, Comparison.best_performer data with
  | Some comparison, Some best =>
      (set_innerHTML comparisonResults (comparison_block comparison best) s, true)
  | _, _ => (s, false)
  end.

(** The four slots, trimmed, without the empty ones. *)
Definition compare_entries (s : Page) : list string :=
  filter (fun e => negb (e =? ""))
    [ Str.trim (compareInput1 s); Str.trim (compareInput2 s);
      Str.trim (compareInput3 s); Str.trim (compareInput4 s) ].

(** Up to the [await]: [false] when the function has returned, [true] when
    it waits for the answer. *)
Definition compareStocks_begin (s : Page) : Page * bool :=
  let stocks := compare_entries s in
  if (List.length stocks <? 2)%nat then
    (emit (Alert "Please enter at least 2 stocks to compare") s, false)
  else if (4 <? List.length stocks)%nat then
    (emit (Alert "Maximum 4 stocks can be compared") s, false)
  else
    let s := set_compareBtn loading s in
    (emit (Fetch "POST" (API_BASE ++ "/compare") (Some stocks)) s, true).

Definition compareStocks_resume (r : fetched Comparison.t) (s : Page) : Page :=
  let caught (s : Page) : Page :=
    let s := emit (ConsoleError "Error comparing stocks:") s in
    emit (Alert "Error comparing stocks. Please try again.") s in
  let s := match awaited r with
           | Some data =>
               let '(s, returned) := displayComparison data s in
               if returned then s else caught s
           | None => caught s
           end in
  set_compareBtn idle s.

Definition compareStocks (r : fetched Comparison.t) (s : Page) : Page :=
  let '(s1, waiting) := compareStocks_begin s in
  if waiting then compareStocks_resume r s1 else s1.

(** ** The listeners installed at [DOMContentLoaded] *)

Definition stockInput_keypress (key : string) (s : Page) : Page * option string :=
  if key =? "Enter" then analyzeStock_begin s else (s, None).

(** A click on a period button whose [data-period] is [period]. *)
Definition periodBtn_click (period : option string) (s : Page) : Page :=
  match currentSymbol s with
  | Some symbol =>
      if Str.is_empty symbol then s
      else loadChart_begin symbol period (set_activePeriod period s)
  | None => s
  end.

(** What the user does to the search field between two handlers. *)
Definition type_stockInput (text : string) (s : Page) : Page := set_stockInput text s.

(** ** Reading the log *)

Definition is_fetch (ev : Event) : bool :=
  match ev with
  | Fetch _ _ _ => true
  | _ => false
  end.

Definition is_alert (ev : Event) : bool :=
  match ev with
  | Alert _ => true
  | _ => false
  end.

(** The rows of a metrics block are told by their label. *)
Definition is_label (label : string) (f : frag) : bool :=
  match f, metric_label label with
  | Lit t, Lit l => t =? l
  | _, _ => false
  end.

Definition has_row (label : string) (block : html) : bool := existsb (is_label label) block.

(** An inline failure message is a literal chunk that reads "Failed to load". *)
Fixpoint contains (needle hay : string) : bool :=
  match Str.strip needle hay with
  | Some _ => true
  | None =>
      match hay with
      | EmptyString => false
      | String _ rest => contains needle rest
      end
  end.

Definition is_failure_text (f : frag) : bool :=
  match f with
  | Lit t => contains "Failed to load" t
  | _ => false
  end.

Definition shows_failure (h : html) : bool := existsb is_failure_text h.

(** The number of chart instances that were constructed and not destroyed. *)
Definition live_charts (s : Page) : nat := List.length (filter live (charts s)).

(** ** Sample answers of the API *)

Definition sample_analysis : Analysis.t :=
  {| Analysis.symbol := "TCS"; Analysis.company_name := "Tata Consultancy Services";
     Analysis.exchange := "NSE"; Analysis.decision := "HOLD";
     Analysis.explanation := "Flat over six months.";
     Analysis.sentiment_score := 0.5%float; Analysis.price_change_6m := 1.25%float |}.

(** A snapshot with no market capitalisation and a traded volume of zero. *)
Definition sample_metrics : Metrics.t :=
  {| Metrics.current_price := 3500%float; Metrics.currency := "INR";
     Metrics.day_change := (-12.5)%float; Metrics.day_change_pct := (-0.25)%float;
     Metrics.high_52w := Some 4200%float; Metrics.low_52w := Some 3000%float;
     Metrics.market_cap := None; Metrics.volume := Some 0%float;
     Metrics.pe_ratio := Some 28.5%float |}.

(** What a handler added to the log. *)
Definition emitted (before after : Page) : list Event :=
  skipn (List.length (log before)) (log after).

(** * Definitions used by the statements *)

(** The lookup fails: no response (network error), a response that is not
    [ok], or a body that does not parse. *)
Definition lookup_failed (r : fetched Analysis.t) : Prop :=
  match r with
  | None => True
  | Some response => ok response = false \/ json response = None
  end.

(** The page a moment after a lookup for AAPL was sent from the fresh page,
    the search field cleared since. *)
Definition lookup_in_flight : Page :=
  type_stockInput "" (fst (analyzeStock_begin (type_stockInput "AAPL" freshPage))).

Definition containers : list container :=
  [trendingStocks; metricsContent; newsContent; comparisonResults].

(** What can happen to the chart, in any order: [loadChart] is called and
    sends its request, or a request sent earlier settles and the rest of
    the function runs. *)
Inductive chart_step : Type :=
| Requested (symbol : string) (period : option string)
| Settled (r : fetched Series.t).

Definition chart_do (s : Page) (step : chart_step) : Page :=
  match step with
  | Requested symbol period => loadChart_begin symbol period s
  | Settled r => loadChart_resume r s
  end.

Definition chart_run (steps : list chart_step) (s : Page) : Page :=
  fold_left chart_do steps s.

(** Apart from the instance [currentChart] refers to, no instance is live. *)
Definition chart_invariant (s : Page) : Prop :=
  filter live
    match currentChart s with
    | Some id => mark_destroyed id (charts s)
    | None => charts s
    end = [].

(** A string of white space only, the empty string included: a sequence of
    the code points that [trim] strips, those of [Str.white_space]. *)
Inductive white : string -> Prop :=
| white_empty : white ""
| white_more (space rest : string) :
    In space Str.white_space -> white rest -> white (space ++ rest).

Definition lit_eqb (t : string) (f : frag) : bool :=
  match f with
  | Lit u => u =? t
  | _ => false
  end.

(** How many literal chunks of [h] are exactly [t]. *)
Definition count_lit (t : string) (h : html) : nat := List.length (filter (lit_eqb t) h).

(** The chunks that open a trending card, a news item, a comparison item and
    a row of the metrics block. *)
Definition trending_card_open : string :=
  "<div class=" ++ q "trending-card" ++ " onclick=" ++ Str.dq ++ "quickAnalyze('".

Definition news_item_open : string := "<div class=" ++ q "news-item" ++ ">".

Definition comparison_item_open : string := "<div class=" ++ q "comparison-item" ++ ">".

Definition metric_item_open : string := "<div class=" ++ q "metric-item" ++ ">".

(** The text of the chunk [metric_label label]. *)
Definition metric_label_text (label : string) : string :=
  "<span class=" ++ q "metric-label" ++ ">" ++ label ++ "</span>".

(** How many rows of a metrics block carry the label [label]. *)
Definition count_rows (label : string) (block : html) : nat :=
  count_lit (metric_label_text label) block.

(** What the user types into the four slots of the comparison. *)
Definition type_compareInputs (a b c d : string) (s : Page) : Page :=
  {| currentChart := currentChart s; currentSymbol := currentSymbol s;
     currentCompanyName := currentCompanyName s; stockInput := stockInput s;
     compareInput1 := a; compareInput2 := b; compareInput3 := c; compareInput4 := d;
     activePeriod := activePeriod s; analyzeBtn := analyzeBtn s; compareBtn := compareBtn s;
     results := results s; innerHTML := innerHTML s;
     comparisonResults_display := comparisonResults_display s; charts := charts s;
     log := log s |}.

(** Everything that can happen to the page: the listeners installed at
    [DOMContentLoaded] fire, the user types, and a request sent earlier
    settles, in which case the rest of the [async] function that sent it
    runs.  No order is imposed, which covers every interleaving the event
    loop can produce. *)
Inductive action : Type :=
| PageLoaded
| TrendingSettled (r : fetched Trending.t)
| SearchTyped (text : string)
| SlotsTyped (a b c d : string)
| AnalyzeClicked
| KeyPressed (key : string)
| CardClicked (symbol name : string)
| LookupSettled (query : string) (r : fetched Analysis.t)
| MetricsSettled (symbol : string) (r : fetched Metrics.t)
| MetricsAnalysisSettled (data : Metrics.t) (r : fetched Analysis.t)
| ChartSettled (r : fetched Series.t)
| NewsSettled (r : fetched News.t)
| PeriodClicked (period : option string)
| CompareClicked
| CompareSettled (r : fetched Comparison.t).

Definition act (s : Page) (a : action) : Page :=
  match a with
  | PageLoaded => loadTrendingStocks_begin s
  | TrendingSettled r => loadTrendingStocks_resume r s
  | SearchTyped text => type_stockInput text s
  | SlotsTyped a b c d => type_compareInputs a b c d s
  | AnalyzeClicked => fst (analyzeStock_begin s)
  | KeyPressed key => fst (stockInput_keypress key s)
  | CardClicked symbol name => fst (quickAnalyze symbol name s)
  | LookupSettled query r => analyzeStock_resume query r s
  | MetricsSettled symbol r => fst (loadMetrics_metrics symbol r s)
  | MetricsAnalysisSettled data r => loadMetrics_analysis data r s
  | ChartSettled r => loadChart_resume r s
  | NewsSettled r => loadNews_resume r s
  | PeriodClicked period => periodBtn_click period s
  | CompareClicked => fst (compareStocks_begin s)
  | CompareSettled r => compareStocks_resume r s
  end.

Definition run (actions : list action) (s : Page) : Page := fold_left act actions s.

Definition page_invariant (s : Page) : Prop :=
  chart_invariant s
  /\ (forall id, currentChart s = Some id -> id < List.length (charts s)).

(** Bounds on binary64 values, stated on the library's [spec_float]: the
    value of a finite number [m * 2^e] is bounded without real numbers, for
    [e <= 0], [m * 2^e <= c] being [m <= c * 2^(-e)]. *)
Module Binary64.
Local Open Scope Z_scope.

(** An upper bound of what a shift record stands for: its mantissa, plus one
    when bits were shifted out. *)
Definition up (mrs : shr_record) : Z :=
  shr_m mrs + (if shr_r mrs || shr_s mrs then 1 else 0).

(** One when the location says that the mantissa is below the exact value. *)
Definition inexact (l : location) : Z :=
  match l with
  | loc_Exact => 0
  | loc_Inexact _ => 1
  end.

Abbreviation two52 := 4503599627370496%Z (only parsing).

(** [f] is a zero, or positive and finite with a value of at most [c]. *)
Definition below (c : Z) (f : spec_float) : Prop :=
  match f with
  | S754_zero _ => True
  | S754_finite false m e => e <= 0 /\ Zpos m <= c * 2 ^ (- e)
  | _ => False
  end.

(** The literals 1, -1, 2 and 100 of the script, as [Prim2SF] gives them. *)
Definition SF_one : spec_float := S754_finite false 4503599627370496 (-52).

Definition SF_minus_one : spec_float := S754_finite true 4503599627370496 (-52).

Definition SF_two : spec_float := S754_finite false 4503599627370496 (-51).

Definition SF_hundred : spec_float := S754_finite false 7036874417766400 (-46).

End Binary64.

(** * Properties *)

(** ** The page record *)

Lemma log_emit (ev : Event) (s : Page) : log (emit ev s) = (log s ++ [ev])%list.
Proof. destruct s; reflexivity. Qed.

Lemma emitted_extends (before after : Page) (evs : list Event) :
  log after = (log before ++ evs)%list -> emitted before after = evs.
Proof.
  intros H. unfold emitted. rewrite H, skipn_app, skipn_all, Nat.sub_diag. reflexivity.
Qed.

Lemma emitted_nothing (s : Page) : emitted s s = [].
Proof. apply emitted_extends. now rewrite app_nil_r. Qed.


(** ** The decision banner *)

Example toLowerCase_BUY : Str.toLowerCase "BUY" = "buy".
Proof. reflexivity. Qed.

Example toLowerCase_mixed : Str.toLowerCase "Hold-9Z" = "hold-9z".
Proof. reflexivity. Qed.

Lemma results_displayResults (data : Analysis.t) (s : Page) :
  results (displayResults data s) =
    {| resultsSection_display := "block";
       decisionBanner_className :=
         "decision-banner decision-" ++ Str.toLowerCase (Analysis.decision data);
       decision_icon := decision_icon_of (Analysis.decision data);
       decision_title := Analysis.decision data ++ " - " ++ Analysis.symbol data;
       decision_subtitle := Analysis.company_name data ++ " | " ++ Analysis.exchange data;
       explanationContent := Analysis.explanation data |}.
Proof. destruct s; reflexivity. Qed.

(** C2. For an analysis whose decision is BUY, SELL or HOLD, [displayResults]
    sets the class of the banner to 'decision-banner decision-' followed by the
    decision in lower case, and the icon by the table BUY: chart going up,
    SELL: chart going down, HOLD: pause; the table is one to one, the three
    icons and the three classes being pairwise different. *)
Theorem displayResults_banner_and_icon (data : Analysis.t) (s : Page) :
  In (Analysis.decision data) ["BUY"; "SELL"; "HOLD"] ->
  let banner := results (displayResults data s) in
  decisionBanner_className banner
    = "decision-banner decision-" ++ Str.toLowerCase (Analysis.decision data)
  /\ In (Analysis.decision data, decisionBanner_className banner, decision_icon banner)
       [ ("BUY", "decision-banner decision-buy", icon_chart_up);
         ("SELL", "decision-banner decision-sell", icon_chart_down);
         ("HOLD", "decision-banner decision-hold", icon_pause) ]
  /\ (icon_chart_up <> icon_chart_down /\ icon_chart_up <> icon_pause
      /\ icon_chart_down <> icon_pause).
Proof.
  intros Hd banner. subst banner. rewrite results_displayResults. cbn [decisionBanner_className decision_icon].
  split; [reflexivity|]. split.
  - simpl in Hd. destruct Hd as [H|[H|[H|[]]]]; rewrite <- H; vm_compute; tauto.
  - repeat split; vm_compute; discriminate.
Qed.

Lemma displayResults_banner_and_icon_witness :
  decisionBanner_className
    (results (displayResults
       {| Analysis.symbol := "INFY"; Analysis.company_name := "Infosys";
          Analysis.exchange := "NSE"; Analysis.decision := "SELL";
          Analysis.explanation := "weak"; Analysis.sentiment_score := (-0.25)%float;
          Analysis.price_change_6m := (-3.5)%float |} freshPage))
  = "decision-banner decision-sell".
Proof.
  apply (displayResults_banner_and_icon
    {| Analysis.symbol := "INFY"; Analysis.company_name := "Infosys";
       Analysis.exchange := "NSE"; Analysis.decision := "SELL";
       Analysis.explanation := "weak"; Analysis.sentiment_score := (-0.25)%float;
       Analysis.price_change_6m := (-3.5)%float |} freshPage).
  simpl. tauto.
Defined.

(** Reduces the fields of a page built by the setters. *)
Ltac page :=
  cbn [currentChart currentSymbol currentCompanyName stockInput compareInput1 compareInput2
       compareInput3 compareInput4 activePeriod analyzeBtn compareBtn results innerHTML
       comparisonResults_display charts log set_currentChart set_currentSymbol
       set_currentCompanyName set_stockInput set_activePeriod set_analyzeBtn set_compareBtn
       set_results set_innerHTML set_comparisonResults_display set_charts emit fst snd] in *.

(** Splits on the tests of a handler, the innermost first. *)
Ltac handler_cases :=
  repeat match goal with
         | |- context [match ?x with _ => _ end] =>
             lazymatch x with
             | context [match _ with _ => _ end] => fail
             | _ => destruct x eqn:?
             end
         end.

(** ** Comparison: the count of entries *)

Lemma compare_entries_length (s : Page) : List.length (compare_entries s) <= 4.
Proof.
  unfold compare_entries.
  etransitivity; [apply filter_length_le | simpl; lia].
Qed.

Lemma compare_entries_spec (s : Page) (e : string) :
  In e (compare_entries s) <->
  e <> "" /\ In e [ Str.trim (compareInput1 s); Str.trim (compareInput2 s);
                    Str.trim (compareInput3 s); Str.trim (compareInput4 s) ].
Proof.
  unfold compare_entries. rewrite filter_In, negb_true_iff, String.eqb_neq. tauto.
Qed.

Lemma log_compareStocks_resume (r : fetched Comparison.t) (s : Page) :
  log (compareStocks_resume r s) = log s
  \/ log (compareStocks_resume r s)
     = (log s ++ [ ConsoleError "Error comparing stocks:";
                   Alert "Error comparing stocks. Please try again." ])%list.
Proof.
  unfold compareStocks_resume, displayComparison.
  destruct (awaited r) as [data|]; [|right; page; now rewrite <- app_assoc].
  destruct (Comparison.comparison data), (Comparison.best_performer data);
    [left; reflexivity | right ..]; page; now rewrite <- app_assoc.
Qed.

Example compare_entries_example :
  compare_entries
    (set_stockInput "x"
       {| currentChart := None; currentSymbol := None; currentCompanyName := None;
          stockInput := ""; compareInput1 := " AAPL"; compareInput2 := "   ";
          compareInput3 := "msft "; compareInput4 := ""; activePeriod := None;
          analyzeBtn := idle; compareBtn := idle; results := results freshPage;
          innerHTML := fun _ => []; comparisonResults_display := "";
          charts := []; log := [] |})
  = ["AAPL"; "msft"].
Proof. reflexivity. Qed.

(** C4. Whatever the four slots hold: with fewer than two or more than four
    non-empty trimmed entries [compareStocks] raises one alert and returns
    without any request; otherwise the run sends one request, POST /compare,
    carrying exactly the non-empty trimmed entries. *)
Theorem compareStocks_count_bounds (r : fetched Comparison.t) (s : Page) :
  let stocks := compare_entries s in
  let s' := compareStocks r s in
  (forall e, In e stocks <->
     e <> "" /\ In e [ Str.trim (compareInput1 s); Str.trim (compareInput2 s);
                       Str.trim (compareInput3 s); Str.trim (compareInput4 s) ])
  /\ (List.length stocks < 2 \/ 4 < List.length stocks ->
      (exists message, emitted s s' = [Alert message])
      /\ filter is_fetch (emitted s s') = [])
  /\ (2 <= List.length stocks <= 4 ->
      filter is_fetch (emitted s s')
        = [Fetch "POST" (API_BASE ++ "/compare") (Some stocks)]).
Proof.
  intros stocks s'. split; [apply compare_entries_spec|].
  subst s'. unfold compareStocks, compareStocks_begin. fold stocks.
  destruct (Nat.ltb_spec (List.length stocks) 2) as [Hlt|Hge].
  - split; [intros _ | lia].
    rewrite (emitted_extends s _ [Alert "Please enter at least 2 stocks to compare"])
      by reflexivity.
    split; [eexists; reflexivity | reflexivity].
  - destruct (Nat.ltb_spec 4 (List.length stocks)) as [Hgt|Hle].
    + split; [intros _ | lia].
      rewrite (emitted_extends s _ [Alert "Maximum 4 stocks can be compared"])
        by reflexivity.
      split; [eexists; reflexivity | reflexivity].
    + split; [lia | intros _].
      destruct (log_compareStocks_resume r
                  (emit (Fetch "POST" (API_BASE ++ "/compare") (Some stocks))
                     (set_compareBtn loading s))) as [E|E];
        (erewrite emitted_extends by (rewrite E; page; rewrite <- ?app_assoc; reflexivity));
        reflexivity.
Qed.

(** C10. The four slots give at most four entries, so no run of
    [compareStocks] raises the alert 'Maximum 4 stocks can be compared'. *)
Theorem compareStocks_maximum_unreachable (r : fetched Comparison.t) (s : Page) :
  List.length (compare_entries s) <= 4
  /\ ~ In (Alert "Maximum 4 stocks can be compared") (emitted s (compareStocks r s)).
Proof.
  pose proof (compare_entries_length s) as Hlen. split; [exact Hlen|].
  unfold compareStocks, compareStocks_begin.
  destruct (Nat.ltb_spec (List.length (compare_entries s)) 2) as [Hlt|Hge].
  - rewrite (emitted_extends s _ [Alert "Please enter at least 2 stocks to compare"])
      by reflexivity.
    simpl. intros [H|[]]. discriminate H.
  - destruct (Nat.ltb_spec 4 (List.length (compare_entries s))) as [Hgt|Hle]; [lia|].
    destruct (log_compareStocks_resume r
                (emit (Fetch "POST" (API_BASE ++ "/compare") (Some (compare_entries s)))
                   (set_compareBtn loading s))) as [E|E];
      (erewrite emitted_extends by (rewrite E; page; rewrite <- ?app_assoc; reflexivity));
      simpl; intuition discriminate.
Qed.

(** ** Stock analysis: failure of the lookup *)

Lemma analyzeStock_try_failed (query : string) (r : fetched Analysis.t) (s : Page) :
  lookup_failed r ->
  analyzeStock_try query r s
  = emit (Alert (not_found_message query)) (emit (ConsoleError "Error analyzing stock:") s).
Proof.
  unfold lookup_failed, analyzeStock_try. destruct r as [[o j]|]; cbn [ok json]; [|reflexivity].
  intros [->| ->]; [reflexivity|]. destruct o; reflexivity.
Qed.

Lemma analyzeStock_begin_waiting (s : Page) (query : string) :
  snd (analyzeStock_begin s) = Some query ->
  query = Str.trim (stockInput s)
  /\ Str.is_empty query = false
  /\ fst (analyzeStock_begin s)
     = emit (Fetch "GET" (API_BASE ++ "/analyze/" ++ Str.encodeURIComponent query) None)
         (set_analyzeBtn loading s).
Proof.
  unfold analyzeStock_begin.
  destruct (Str.is_empty (Str.trim (stockInput s))) eqn:E; cbn [fst snd]; [discriminate|].
  intros [= <-]. auto.
Qed.

Lemma analyzeStock_waiting (r : fetched Analysis.t) (s : Page) (query : string) :
  snd (analyzeStock_begin s) = Some query ->
  analyzeStock r s = analyzeStock_resume query r (fst (analyzeStock_begin s)).
Proof.
  unfold analyzeStock. destruct (analyzeStock_begin s) as [s1 [w|]]; cbn [fst snd];
    [intros [= ->]; reflexivity | discriminate].
Qed.

Lemma analyzeStock_resume_failed (query : string) (r : fetched Analysis.t) (s : Page) :
  lookup_failed r ->
  currentSymbol (analyzeStock_resume query r s) = currentSymbol s
  /\ currentCompanyName (analyzeStock_resume query r s) = currentCompanyName s
  /\ emitted s (analyzeStock_resume query r s)
     = [ConsoleError "Error analyzing stock:"; Alert (not_found_message query)].
Proof.
  intros Hf. unfold analyzeStock_resume. rewrite analyzeStock_try_failed by exact Hf.
  page. repeat split.
  apply emitted_extends. page. now rewrite <- app_assoc.
Qed.

(** C5. When the lookup of a run of [analyzeStock] fails (network error,
    response not ok, body that does not parse), the run raises the alert
    'Could not find stock ...' and leaves [currentSymbol] and
    [currentCompanyName] as they were: as the run found them at its start,
    and, whatever ran while the request was in flight, as they were when
    the request settled. *)
Theorem analyzeStock_failure_keeps_session (r : fetched Analysis.t) (query : string)
    (s waiting : Page) :
  snd (analyzeStock_begin s) = Some query ->
  lookup_failed r ->
  (currentSymbol (analyzeStock r s) = currentSymbol s
   /\ currentCompanyName (analyzeStock r s) = currentCompanyName s
   /\ In (Alert (not_found_message query)) (emitted s (analyzeStock r s)))
  /\ (currentSymbol (analyzeStock_resume query r waiting) = currentSymbol waiting
      /\ currentCompanyName (analyzeStock_resume query r waiting) = currentCompanyName waiting
      /\ emitted waiting (analyzeStock_resume query r waiting)
         = [ConsoleError "Error analyzing stock:"; Alert (not_found_message query)]).
Proof.
  intros Hw Hf. split; [|apply analyzeStock_resume_failed; exact Hf].
  rewrite (analyzeStock_waiting r s query Hw).
  destruct (analyzeStock_begin_waiting s query Hw) as (_ & _ & ->).
  unfold analyzeStock_resume. rewrite analyzeStock_try_failed by exact Hf.
  page. repeat split.
  erewrite emitted_extends by (page; rewrite <- !app_assoc; reflexivity).
  simpl. tauto.
Qed.

Lemma analyzeStock_failure_keeps_session_witness :
  currentSymbol (analyzeStock None (type_stockInput "TCS" freshPage)) = None
  /\ In (Alert (not_found_message "TCS"))
       (emitted (type_stockInput "TCS" freshPage)
                (analyzeStock None (type_stockInput "TCS" freshPage))).
Proof.
  destruct (analyzeStock_failure_keeps_session None "TCS" (type_stockInput "TCS" freshPage)
              freshPage eq_refl I) as [(H1 & _ & H3) _].
  split; [exact H1 | exact H3].
Defined.

(** The two variables change only when the lookup succeeded: a response that
    is [ok] with a body that parses. *)
Lemma analyzeStock_session_changes_only_on_success (query : string)
    (r : fetched Analysis.t) (s : Page) :
  currentSymbol (analyzeStock_resume query r s) <> currentSymbol s
  \/ currentCompanyName (analyzeStock_resume query r s) <> currentCompanyName s ->
  exists response data, r = Some response /\ ok response = true /\ json response = Some data.
Proof.
  intros H.
  assert (Hcases : lookup_failed r
                   \/ exists response data,
                        r = Some response /\ ok response = true /\ json response = Some data).
  { destruct r as [[[|] [data|]]|]; cbn [lookup_failed ok json]; auto.
    right. exists {| ok := true; json := Some data |}, data. auto. }
  destruct Hcases as [Hf|Hs]; [exfalso | exact Hs].
  destruct (analyzeStock_resume_failed query r s Hf) as (H1 & H2 & _).
  destruct H as [H|H]; apply H; assumption.
Qed.

(** ** Stock analysis: the button *)

Example lookup_in_flight_log :
  log lookup_in_flight = [Fetch "GET" "http://localhost:8000/api/analyze/AAPL" None].
Proof. reflexivity. Qed.

Example encodeURIComponent_example :
  Str.encodeURIComponent "Tata Motors & Co" = "Tata%20Motors%20%26%20Co".
Proof. reflexivity. Qed.

(** C9, as stated, fails: while a lookup is in flight, a run started by the
    Enter key on the emptied field returns at once with its alert and leaves
    the button disabled, its text hidden and its loader shown. *)
Lemma analyzeStock_early_return_leaves_button_disabled :
  snd (analyzeStock_begin lookup_in_flight) = None
  /\ emitted lookup_in_flight (analyzeStock None lookup_in_flight)
     = [Alert "Please enter a stock name or symbol"]
  /\ analyzeBtn (analyzeStock None lookup_in_flight)
     = {| disabled := true; btn_text_display := "none"; btn_loader_display := "inline-block" |}.
Proof. repeat split. Qed.

(** C9, amended. A run of [analyzeStock] that sends its request disables the
    button, hides its text and shows its loader at that moment, and when it
    ends, whether the lookup succeeded or failed and whatever ran in between,
    it leaves the button enabled, its text shown and its loader hidden; a run
    that returns early on empty input leaves the button as it found it.
    While a request is in flight nothing keeps the button disabled: no
    other handler touches it, but another run of [analyzeStock] does, its
    start disabling the button again and its end enabling it. *)
Theorem analyzeStock_button (r : fetched Analysis.t) (query : string) (s waiting : Page) :
  analyzeBtn (fst (analyzeStock_begin s))
  = match snd (analyzeStock_begin s) with
    | Some _ => {| disabled := true; btn_text_display := "none";
                   btn_loader_display := "inline-block" |}
    | None => analyzeBtn s
    end
  /\ analyzeBtn (analyzeStock_resume query r waiting)
     = {| disabled := false; btn_text_display := "inline"; btn_loader_display := "none" |}
  /\ analyzeBtn (analyzeStock r s)
     = match snd (analyzeStock_begin s) with
       | Some _ => {| disabled := false; btn_text_display := "inline";
                      btn_loader_display := "none" |}
       | None => analyzeBtn s
       end
  /\ (forall a : action,
        match a with
        | AnalyzeClicked | KeyPressed _ | CardClicked _ _ | LookupSettled _ _ => True
        | _ => analyzeBtn (act waiting a) = analyzeBtn waiting
        end).
Proof.
  unfold analyzeStock, analyzeStock_begin, analyzeStock_resume.
  split; [|split; [|split]];
    try (destruct (Str.is_empty (Str.trim (stockInput s))); reflexivity).
  intros a. destruct a; cbn [act]; try exact I;
    unfold loadTrendingStocks_begin, loadTrendingStocks_resume, type_stockInput,
      type_compareInputs, loadMetrics_metrics, loadMetrics_analysis, loadMetrics_catch,
      loadChart_resume, new_Chart, destroy, loadNews_resume, periodBtn_click,
      loadChart_begin, compareStocks_begin, compareStocks_resume, displayComparison;
    handler_cases; reflexivity.
Qed.

(** ** Metrics: the two requests *)

Lemma loadMetrics_success (symbol : string) (r1 : fetched Metrics.t)
    (r2 : fetched Analysis.t) (s : Page) (data : Metrics.t) (analysisData : Analysis.t) :
  awaited r1 = Some data ->
  awaited r2 = Some analysisData ->
  loadMetrics symbol r1 r2 s
  = set_innerHTML metricsContent (metrics_block data analysisData)
      (emit (Fetch "GET" (API_BASE ++ "/analyze/" ++ symbol) None)
         (loadMetrics_begin symbol s)).
Proof.
  intros H1 H2. unfold loadMetrics, loadMetrics_metrics, loadMetrics_analysis.
  rewrite H1, H2. reflexivity.
Qed.

(** C7. A successful [loadMetrics symbol] sends exactly two requests, GET
    /metrics/symbol and then GET /analyze/symbol, and renders one block that
    holds the fields of the first answer together with the six-month change
    and the sentiment score (and the bar computed from it) of the second. *)
Theorem loadMetrics_two_requests (symbol : string) (r1 : fetched Metrics.t)
    (r2 : fetched Analysis.t) (s : Page) (data : Metrics.t) (analysisData : Analysis.t) :
  awaited r1 = Some data ->
  awaited r2 = Some analysisData ->
  let s' := loadMetrics symbol r1 r2 s in
  emitted s s'
  = [ Fetch "GET" (API_BASE ++ "/metrics/" ++ symbol) None;
      Fetch "GET" (API_BASE ++ "/analyze/" ++ symbol) None ]
  /\ innerHTML s' metricsContent = metrics_block data analysisData
  /\ In (Num (Metrics.current_price data)) (innerHTML s' metricsContent)
  /\ In (Num (Metrics.day_change data)) (innerHTML s' metricsContent)
  /\ In (Num (Analysis.price_change_6m analysisData)) (innerHTML s' metricsContent)
  /\ In (Fixed2 (Analysis.sentiment_score analysisData)) (innerHTML s' metricsContent)
  /\ In (Num (sentimentPercent (Analysis.sentiment_score analysisData)))
       (innerHTML s' metricsContent).
Proof.
  intros H1 H2 s'. subst s'. rewrite (loadMetrics_success _ _ _ _ _ _ H1 H2).
  unfold loadMetrics_begin. page. cbn [container_eqb].
  split; [apply emitted_extends; page; now rewrite <- app_assoc|].
  split; [reflexivity|].
  unfold metrics_block.
  repeat split; apply in_concat; eexists; (split; [cbn [In]|]).
  - left; reflexivity.
  - cbn [metric_item app In]. auto.
  - do 1 right. left. reflexivity.
  - unfold metric_item. apply in_or_app. right. apply in_or_app. left.
    apply in_concat. eexists. split; [cbn [In]; right; left; reflexivity | cbn [In]; auto].
  - do 2 right. left. reflexivity.
  - unfold metric_item. apply in_or_app. right. apply in_or_app. left.
    apply in_concat. eexists. split; [cbn [In]; right; left; reflexivity | cbn [In]; auto].
  - do 8 right. left. reflexivity.
  - cbn [metric_item app In]. auto.
  - do 9 right. left. reflexivity.
  - cbn [In]. auto.
Qed.

Lemma loadMetrics_two_requests_witness :
  emitted freshPage
    (loadMetrics "TCS" (Some {| ok := true; json := Some sample_metrics |})
       (Some {| ok := true; json := Some sample_analysis |}) freshPage)
  = [ Fetch "GET" "http://localhost:8000/api/metrics/TCS" None;
      Fetch "GET" "http://localhost:8000/api/analyze/TCS" None ].
Proof.
  apply (loadMetrics_two_requests "TCS"
           (Some {| ok := true; json := Some sample_metrics |})
           (Some {| ok := true; json := Some sample_analysis |})
           freshPage sample_metrics sample_analysis eq_refl eq_refl).
Defined.

(** ** Failing requests *)

Example failure_messages :
  shows_failure failed_trending = true /\ shows_failure failed_metrics = true
  /\ shows_failure failed_news = true /\ shows_failure metrics_loader = false
  /\ shows_failure no_news = false.
Proof. repeat split. Qed.

(** C1, as stated, fails for [loadChart]: when its request fails on the
    fresh page, the failure goes to the console only, and no container of
    the page shows a failure message. *)
Lemma loadChart_failure_shows_no_message :
  emitted freshPage (loadChart "AAPL" None None freshPage)
  = [ Fetch "GET" "http://localhost:8000/api/chart/AAPL/6mo" None;
      ConsoleError "Error loading chart:" ]
  /\ existsb (fun c => shows_failure (innerHTML (loadChart "AAPL" None None freshPage) c))
       containers = false.
Proof. split; reflexivity. Qed.

Lemma loadMetrics_failed (symbol : string) (rm : fetched Metrics.t) (ra : fetched Analysis.t)
    (s : Page) :
  awaited rm = None \/ awaited ra = None ->
  exists s1, loadMetrics symbol rm ra s = loadMetrics_catch s1
             /\ (forall c, c <> metricsContent -> innerHTML s1 c = innerHTML s c)
             /\ results s1 = results s.
Proof.
  intros H. unfold loadMetrics, loadMetrics_metrics, loadMetrics_analysis.
  assert (Hb : forall c, c <> metricsContent ->
                         innerHTML (loadMetrics_begin symbol s) c = innerHTML s c)
    by (intros [] Hc; try reflexivity; congruence).
  destruct (awaited rm) as [data|].
  - destruct H as [H|H]; [discriminate|]. rewrite H.
    eexists. split; [reflexivity|]. split; [exact Hb | reflexivity].
  - eexists. split; [reflexivity|]. split; [exact Hb | reflexivity].
Qed.

(** C1, amended. A failing request of [loadTrendingStocks], [loadMetrics]
    (either of its two requests) or [loadNews] is caught inside the function,
    which sets its own container to its failure message, 'Failed to load
    trending stocks', 'Failed to load metrics', 'Failed to load news', and
    leaves every other container and the analysis display as they were; a
    failing request of [loadChart] is caught inside the function as well and
    reported on the console only: every container is left as it was. *)
Theorem fetch_failure_is_local (s : Page) (symbol companyName : string)
    (period : option string) (rt : fetched Trending.t) (rm : fetched Metrics.t)
    (ra : fetched Analysis.t) (rn : fetched News.t) (rc : fetched Series.t) :
  (awaited rt = None ->
   innerHTML (loadTrendingStocks rt s) trendingStocks = failed_trending
   /\ (forall c, c <> trendingStocks -> innerHTML (loadTrendingStocks rt s) c = innerHTML s c)
   /\ results (loadTrendingStocks rt s) = results s)
  /\ (awaited rm = None \/ awaited ra = None ->
      innerHTML (loadMetrics symbol rm ra s) metricsContent = failed_metrics
      /\ (forall c, c <> metricsContent ->
                    innerHTML (loadMetrics symbol rm ra s) c = innerHTML s c)
      /\ results (loadMetrics symbol rm ra s) = results s)
  /\ (awaited rn = None ->
      innerHTML (loadNews companyName rn s) newsContent = failed_news
      /\ (forall c, c <> newsContent -> innerHTML (loadNews companyName rn s) c = innerHTML s c)
      /\ results (loadNews companyName rn s) = results s)
  /\ (awaited rc = None ->
      (forall c, innerHTML (loadChart symbol period rc s) c = innerHTML s c)
      /\ results (loadChart symbol period rc s) = results s
      /\ emitted s (loadChart symbol period rc s)
         = [ Fetch "GET" (API_BASE ++ "/chart/" ++ symbol ++ "/" ++ period_or_default period) None;
             ConsoleError "Error loading chart:" ])
  /\ (shows_failure failed_trending = true /\ shows_failure failed_metrics = true
      /\ shows_failure failed_news = true).
Proof.
  repeat apply conj; try reflexivity.
  - intros H. unfold loadTrendingStocks, loadTrendingStocks_resume. rewrite H.
    repeat split. intros [] Hc; try reflexivity; congruence.
  - intros H. destruct (loadMetrics_failed symbol rm ra s H) as (s1 & -> & Hc & Hr).
    repeat split; [ | exact Hr].
    intros c Hne. rewrite <- (Hc c Hne). destruct c; try reflexivity; congruence.
  - intros H. unfold loadNews, loadNews_resume. rewrite H.
    repeat split. intros [] Hc; try reflexivity; congruence.
  - intros H. unfold loadChart, loadChart_resume. rewrite H.
    repeat split. apply emitted_extends. unfold loadChart_begin. page.
    now rewrite <- app_assoc.
Qed.

Lemma fetch_failure_is_local_witness :
  innerHTML (loadMetrics "TCS" (Some {| ok := false; json := None |}) None freshPage)
    metricsContent = failed_metrics
  /\ innerHTML (loadNews "Tata" None freshPage) newsContent = failed_news
  /\ innerHTML (loadTrendingStocks None freshPage) trendingStocks = failed_trending.
Proof.
  destruct (fetch_failure_is_local freshPage "TCS" "Tata" None None
              (Some {| ok := false; json := None |}) None None None)
    as (Ht & Hm & Hn & _).
  destruct (Ht eq_refl) as [Ht' _]. destruct (Hm (or_introl eq_refl)) as [Hm' _].
  destruct (Hn eq_refl) as [Hn' _].
  repeat split; assumption.
Defined.

(** ** The chart instances *)

Lemma mark_destroyed_live_le (id : nat) (l : list Chart) :
  List.length (filter live l) <= S (List.length (filter live (mark_destroyed id l))).
Proof.
  revert id. induction l as [|c l IH]; intros id; [simpl; lia|].
  destruct id as [|id]; cbn [mark_destroyed filter live].
  - destruct (live c); simpl; lia.
  - specialize (IH id). destruct (live c); simpl; lia.
Qed.

Lemma mark_destroyed_no_live (id : nat) (l : list Chart) :
  filter live l = [] -> filter live (mark_destroyed id l) = [].
Proof.
  revert id. induction l as [|c l IH]; intros id H; [reflexivity|].
  cbn [filter] in H. destruct (live c) eqn:E; [discriminate|].
  destruct id as [|id]; cbn [mark_destroyed filter live]; [exact H|].
  rewrite E. apply IH, H.
Qed.

Lemma mark_destroyed_last (l : list Chart) (c : Chart) :
  mark_destroyed (List.length l) (l ++ [c])
  = (l ++ [{| live := false; labels := labels c; series := series c |}])%list.
Proof. induction l as [|d l IH]; cbn; [reflexivity | now rewrite IH]. Qed.

Lemma mark_destroyed_dead (id : nat) (l : list Chart) (c : Chart) :
  nth_error (mark_destroyed id l) id = Some c -> live c = false.
Proof.
  revert id. induction l as [|d l IH]; intros [|id]; cbn; try discriminate.
  - now intros [= <-].
  - apply IH.
Qed.

Lemma chart_invariant_fresh : chart_invariant freshPage.
Proof. reflexivity. Qed.

Lemma chart_invariant_live (s : Page) : chart_invariant s -> live_charts s <= 1.
Proof.
  unfold chart_invariant, live_charts. destruct (currentChart s) as [id|]; intros H.
  - pose proof (mark_destroyed_live_le id (charts s)) as Hle. rewrite H in Hle. exact Hle.
  - rewrite H. simpl. lia.
Qed.

Lemma chart_invariant_resume (r : fetched Series.t) (s : Page) :
  chart_invariant s -> chart_invariant (loadChart_resume r s).
Proof.
  unfold chart_invariant, loadChart_resume. intros H.
  destruct (awaited r) as [data|]; [|exact H].
  set (s1 := match currentChart s with Some previous => destroy previous s | None => s end).
  assert (H1 : filter live (charts s1) = [] /\ currentChart s1 = currentChart s).
  { subst s1. destruct (currentChart s) eqn:E; [split; [exact H | exact E] | auto]. }
  destruct H1 as [Hdead Hcur].
  destruct (Series.data data) as [points|].
  - unfold new_Chart. page. rewrite mark_destroyed_last, filter_app, Hdead. reflexivity.
  - page. rewrite Hcur. destruct (currentChart s); [apply mark_destroyed_no_live|]; exact Hdead.
Qed.

Lemma chart_invariant_run (steps : list chart_step) (s : Page) :
  chart_invariant s -> chart_invariant (chart_run steps s).
Proof.
  revert s. induction steps as [|step steps IH]; intros s H; [exact H|].
  cbn [chart_run fold_left]. apply IH. destruct step; [exact H | now apply chart_invariant_resume].
Qed.

Example two_charts_in_succession :
  let points := Some [ {| Series.date := "2024-01-01"; Series.price := 10%float |} ] in
  let answer := Some {| ok := true; json := Some {| Series.data := points |} |} in
  let s := loadChart "TCS" (Some "1y") answer (loadChart "TCS" None answer freshPage) in
  map live (charts s) = [false; true] /\ currentChart s = Some 1
  /\ filter (fun ev => negb (is_fetch ev)) (log s)
     = [ChartCreate 0; ChartDestroy 0; ChartCreate 1].
Proof. repeat split. Qed.

(** C6. When [loadChart] gets its data while [currentChart] records an
    instance, that instance is destroyed first, then the new chart is
    constructed and recorded; and after any sequence of calls of [loadChart],
    settling in any order and with any answers, at most one live chart
    instance exists. *)
Theorem loadChart_one_live_chart :
  (forall (symbol : string) (period : option string) (r : fetched Series.t) (s : Page)
          (previous : nat) (data : Series.t) (points : list Series.point),
      currentChart s = Some previous ->
      awaited r = Some data ->
      Series.data data = Some points ->
      let s' := loadChart symbol period r s in
      emitted s s'
      = [ Fetch "GET" (API_BASE ++ "/chart/" ++ symbol ++ "/" ++ period_or_default period) None;
          ChartDestroy previous;
          ChartCreate (List.length (charts s)) ]
      /\ currentChart s' = Some (List.length (charts s))
      /\ charts s'
         = (mark_destroyed previous (charts s)
            ++ [{| live := true; labels := map Series.date points;
                   series := map Series.price points |}])%list
      /\ (forall c, nth_error (charts s') previous = Some c -> previous < List.length (charts s) ->
                    live c = false))
  /\ (forall steps : list chart_step, live_charts (chart_run steps freshPage) <= 1)
  /\ (forall (s : Page) (steps : list chart_step),
         chart_invariant s -> live_charts (chart_run steps s) <= 1).
Proof.
  split; [|split].
  - intros symbol period r s previous data points Hc Hr Hd s'. subst s'.
    unfold loadChart, loadChart_resume, loadChart_begin. rewrite Hr. page. rewrite Hc, Hd.
    unfold new_Chart, destroy. page.
    assert (Hlen : forall id l, List.length (mark_destroyed id l) = List.length l).
    { intros id l. revert id. induction l as [|d l IH]; intros [|id]; cbn; auto. }
    rewrite Hlen. repeat split.
    + apply emitted_extends. page. now rewrite <- !app_assoc.
    + intros c Hn Hlt. rewrite nth_error_app1 in Hn by (rewrite Hlen; exact Hlt).
      eapply mark_destroyed_dead, Hn.
  - intros steps. apply chart_invariant_live, chart_invariant_run, chart_invariant_fresh.
  - intros s steps H. apply chart_invariant_live, chart_invariant_run, H.
Qed.

Lemma loadChart_one_live_chart_witness :
  live_charts
    (chart_run
       [ Requested "TCS" None; Requested "TCS" (Some "1y");
         Settled (Some {| ok := true; json := Some {| Series.data := Some [] |} |});
         Settled (Some {| ok := true; json := Some {| Series.data := None |} |}) ]
       freshPage) <= 1.
Proof.
  destruct loadChart_one_live_chart as (_ & H & _). apply H.
Defined.

(** ** Metrics: the optional rows *)

Example truthy_values :
  truthy 0 = false /\ truthy (-0) = false /\ truthy nan = false
  /\ truthy 28.5 = true /\ truthy (-1) = true.
Proof. repeat split. Qed.

(** C8, as stated, fails: a snapshot that does carry a volume, of zero,
    gets no Volume row (its present 52-week high does get its row). *)
Lemma volume_zero_has_no_row :
  Metrics.volume sample_metrics = Some 0%float
  /\ has_row "Volume" (metrics_block sample_metrics sample_analysis) = false
  /\ has_row "52-Week High" (metrics_block sample_metrics sample_analysis) = true.
Proof. repeat split. Qed.

Lemma has_row_app (label : string) (a b : html) :
  has_row label (a ++ b)%list = has_row label a || has_row label b.
Proof. apply existsb_app. Qed.

Lemma has_row_plus_sign (label : string) (x : float) : has_row label (plus_sign x) = false.
Proof.
  unfold plus_sign. destruct (0 <=? x)%float; [|reflexivity].
  unfold has_row, is_label, metric_label. cbn. reflexivity.
Qed.

Lemma has_row_formatMarketCap (label : string) (x : float) :
  has_row label (formatMarketCap x) = false.
Proof.
  unfold formatMarketCap.
  destruct (1e12 <=? x)%float; [reflexivity|].
  destruct (1e9 <=? x)%float; [reflexivity|].
  destruct (1e6 <=? x)%float; reflexivity.
Qed.

Lemma length_append (a b : string) :
  String.length (a ++ b) = String.length a + String.length b.
Proof. induction a as [|c a IH]; cbn; [reflexivity | now rewrite IH]. Qed.

Lemma append_cancel_r (a b suffix : string) : a ++ suffix = b ++ suffix -> a = b.
Proof.
  revert b. induction a as [|c a IH]; intros [|d b] H; cbn in H.
  - reflexivity.
  - apply (f_equal String.length) in H. cbn in H. rewrite length_append in H. lia.
  - apply (f_equal String.length) in H. cbn in H. rewrite length_append in H. lia.
  - injection H as -> H. f_equal. apply IH, H.
Qed.

Lemma append_cancel_l (prefix a b : string) : prefix ++ a = prefix ++ b -> a = b.
Proof. induction prefix as [|c p IH]; cbn; [auto | intros [= H]; auto]. Qed.

Lemma is_label_metric_label (label label' : string) :
  is_label label (metric_label label') = (label =? label').
Proof.
  unfold is_label, metric_label.
  destruct (String.eqb_spec label label') as [->|Hne]; [apply String.eqb_refl|].
  apply String.eqb_neq. intros H. apply Hne. symmetry.
  do 3 apply append_cancel_l in H. apply append_cancel_r in H. exact H.
Qed.

(** A row carries its own label and, if its value has none, no other. *)
Lemma has_row_metric_item (label label' cls : string) (value : html) :
  has_row label value = false ->
  has_row label (metric_item label' cls value) = (label =? label').
Proof.
  intros H. unfold metric_item. rewrite !has_row_app, H.
  unfold has_row at 1. cbn [existsb]. rewrite is_label_metric_label.
  replace (is_label label (Lit ("<div class=" ++ q "metric-item" ++ ">"))) with false
    by reflexivity.
  replace (is_label label (Lit ("<span class=" ++ q ("metric-value" ++ cls) ++ ">")))
    with false by reflexivity.
  replace (has_row label [Lit "</span></div>"]) with false by reflexivity.
  cbn [orb]. now rewrite !orb_false_r.
Qed.

Lemma has_row_optional_row (label label' : string) (v : option float) (value : float -> html) :
  (forall x, has_row label (value x) = false) ->
  has_row label (optional_row v (fun x => metric_item label' "" (value x)))
  = (label =? label') && present v.
Proof.
  intros H. unfold optional_row, present. destruct v as [x|]; [|now rewrite andb_false_r].
  destruct (truthy x); [|now rewrite andb_false_r].
  rewrite andb_true_r. apply has_row_metric_item, H.
Qed.

Ltac no_row :=
  intros;
  repeat first
    [ reflexivity
    | rewrite has_row_plus_sign
    | rewrite has_row_formatMarketCap
    | rewrite has_row_app
    | progress cbn [List.concat formatNumber orb] ].

(** C8, amended. In the rendered block, each of the rows 52-Week High,
    52-Week Low, Market Cap, Volume and P/E Ratio is there exactly when its
    field is there and truthy: a field that is missing, and also one that is
    zero, gets no row at all; a field with any other number gets its row. *)
Theorem metrics_optional_rows (data : Metrics.t) (analysisData : Analysis.t) :
  let block := metrics_block data analysisData in
  has_row "52-Week High" block = present (Metrics.high_52w data)
  /\ has_row "52-Week Low" block = present (Metrics.low_52w data)
  /\ has_row "Market Cap" block = present (Metrics.market_cap data)
  /\ has_row "Volume" block = present (Metrics.volume data)
  /\ has_row "P/E Ratio" block = present (Metrics.pe_ratio data)
  /\ (has_row "Current Price" block = true /\ has_row "Today's Change" block = true
      /\ has_row "6-Month Change" block = true /\ has_row "Sentiment Score" block = true).
Proof.
  intros block. subst block. unfold metrics_block. cbn [List.concat].
  repeat split;
    rewrite !has_row_app;
    rewrite !has_row_metric_item by no_row;
    rewrite !has_row_optional_row by no_row;
    cbn [String.eqb Ascii.eqb Bool.eqb andb orb];
    repeat first [ rewrite orb_false_r | rewrite orb_true_r | rewrite andb_true_r ];
    reflexivity.
Qed.


(** * Further properties *)

(** ** Binary64 arithmetic of the sentiment bar

    The operations on [float] are specified by the library's [SpecFloat]
    through the axioms of [FloatAxioms].  The value of a finite number
    [m * 2^e] is bounded here without real numbers: for [e <= 0],
    [m * 2^e <= c] is [m <= c * 2^(-e)]. *)

Module Binary64Facts.
Import Binary64.
Local Open Scope Z_scope.

Lemma pow2_pos (k : Z) : 0 <= k -> 0 < 2 ^ k.
Proof. intros. apply Z.pow_pos_nonneg; lia. Qed.

Lemma pow2_le_1 (k : Z) : k <= 0 -> 2 ^ k <= 1.
Proof.
  intros H. destruct (Z.eq_dec k 0) as [->|Hne]; [reflexivity|].
  rewrite Z.pow_neg_r by lia. lia.
Qed.

Lemma pow2_step (k : Z) : 0 < k -> 2 ^ k = 2 * 2 ^ (k - 1).
Proof.
  intros H. replace k with (Z.succ (k - 1)) at 1 by lia. apply Z.pow_succ_r. lia.
Qed.

Lemma digits2_pos_le (p : positive) (k : Z) :
  Zpos p < 2 ^ k -> Zpos (digits2_pos p) <= k.
Proof.
  revert k. induction p as [p IH|p IH|]; intros k H; cbn [digits2_pos].
  - assert (0 < k) by (pose proof (pow2_le_1 k); lia).
    rewrite pow2_step in H by assumption. specialize (IH (k - 1)). lia.
  - assert (0 < k) by (pose proof (pow2_le_1 k); lia).
    rewrite pow2_step in H by assumption. specialize (IH (k - 1)). lia.
  - pose proof (pow2_le_1 k). lia.
Qed.

Lemma digits2_pos_bounds (p : positive) :
  2 ^ (Zpos (digits2_pos p) - 1) <= Zpos p < 2 ^ Zpos (digits2_pos p).
Proof.
  induction p as [p IH|p IH|]; cbn [digits2_pos].
  - rewrite Pos2Z.inj_succ.
    rewrite (pow2_step (Z.succ (Zpos (digits2_pos p)))) by lia.
    replace (Z.succ (Zpos (digits2_pos p)) - 1) with (Zpos (digits2_pos p)) by lia.
    rewrite (pow2_step (Zpos (digits2_pos p))) in * by lia. lia.
  - rewrite Pos2Z.inj_succ.
    rewrite (pow2_step (Z.succ (Zpos (digits2_pos p)))) by lia.
    replace (Z.succ (Zpos (digits2_pos p)) - 1) with (Zpos (digits2_pos p)) by lia.
    rewrite (pow2_step (Zpos (digits2_pos p))) in * by lia. lia.
  - split; reflexivity.
Qed.

Lemma shr_1_up (mrs : shr_record) (K : Z) :
  0 <= shr_m mrs -> up mrs <= 2 * K ->
  0 <= shr_m (shr_1 mrs) /\ up (shr_1 mrs) <= K.
Proof.
  destruct mrs as [m r s]. unfold up. cbn [shr_m shr_r shr_s]. intros H0 H.
  destruct m as [|[p|p|]|p]; destruct r, s;
    cbn [shr_1 shr_m shr_r shr_s orb] in *; lia.
Qed.

Lemma pow2_double (p : positive) : 2 ^ Zpos p~0 = 2 ^ Zpos p * 2 ^ Zpos p.
Proof. replace (Zpos p~0) with (Zpos p + Zpos p) by lia. apply Z.pow_add_r; lia. Qed.

Lemma pow2_double_succ (p : positive) : 2 ^ Zpos p~1 = 2 * (2 ^ Zpos p * 2 ^ Zpos p).
Proof.
  rewrite <- pow2_double, (pow2_step (Zpos p~1)) by lia.
  do 2 f_equal.
Qed.

Lemma iter_shr_1_up (p : positive) :
  forall (mrs : shr_record) (K : Z),
    0 <= K -> 0 <= shr_m mrs -> up mrs <= K * 2 ^ Zpos p ->
    0 <= shr_m (iter_pos shr_1 p mrs) /\ up (iter_pos shr_1 p mrs) <= K.
Proof.
  induction p as [p IH|p IH|]; intros mrs K HK H0 H; cbn [iter_pos].
  - rewrite pow2_double_succ in H.
    pose proof (pow2_pos (Zpos p) ltac:(lia)) as Hp.
    destruct (shr_1_up mrs (K * 2 ^ Zpos p * 2 ^ Zpos p)) as [H1 H2]; [lia | lia |].
    destruct (IH _ (K * 2 ^ Zpos p) ltac:(nia) H1 H2) as [H3 H4].
    apply IH; assumption.
  - rewrite pow2_double in H.
    pose proof (pow2_pos (Zpos p) ltac:(lia)) as Hp.
    destruct (IH mrs (K * 2 ^ Zpos p) ltac:(nia) H0 ltac:(lia)) as [H3 H4].
    apply IH; assumption.
  - apply shr_1_up; [assumption | change (2 ^ 1) with 2 in H; lia].
Qed.

Lemma Zdigits2_le (m k : Z) : 0 <= m < 2 ^ k -> 0 <= k -> Zdigits2 m <= k.
Proof.
  intros [H0 H] Hk. destruct m as [|p|p]; cbn [Zdigits2]; [lia | | lia].
  now apply digits2_pos_le.
Qed.

Lemma fexp_nonpos (d : Z) : d <= 53 -> fexp prec emax d <= 0.
Proof. unfold fexp, SpecFloat.emin, prec, emax. lia. Qed.

Lemma up_of_loc (m : Z) (l : location) : up (shr_record_of_loc m l) = m + inexact l.
Proof. destruct l as [|[]]; unfold up; cbn [shr_record_of_loc shr_m shr_r shr_s orb inexact]; lia. Qed.

Lemma shr_m_of_loc (m : Z) (l : location) : shr_m (shr_record_of_loc m l) = m.
Proof. destruct l as [|[]]; reflexivity. Qed.

Lemma pow2_split (a b : Z) : 0 <= a -> 0 <= b -> 2 ^ (a + b) = 2 ^ a * 2 ^ b.
Proof. intros. now apply Z.pow_add_r. Qed.

Lemma shr_fexp_below (m e : Z) (l : location) (c : Z) :
  0 <= m -> e <= 0 -> 0 < c <= two52 ->
  m + inexact l <= c * 2 ^ (- e) ->
  snd (shr_fexp prec emax m e l) <= 0
  /\ 0 <= shr_m (fst (shr_fexp prec emax m e l))
  /\ up (fst (shr_fexp prec emax m e l)) <= c * 2 ^ (- snd (shr_fexp prec emax m e l)).
Proof.
  intros Hm He Hc H. unfold shr_fexp, shr.
  destruct (fexp prec emax (Zdigits2 m + e) - e) as [|p|p] eqn:En; cbn [fst snd];
    try (rewrite up_of_loc, shr_m_of_loc; lia).
  assert (Hi : 0 <= inexact l) by (destruct l; cbn [inexact]; lia).
  assert (He' : fexp prec emax (Zdigits2 m + e) <= 0).
  { apply fexp_nonpos.
    assert (Zdigits2 m <= 53 + - e); [|lia].
    apply Zdigits2_le; [|lia]. split; [lia|].
    rewrite pow2_split by lia.
    pose proof (pow2_pos (- e) ltac:(lia)) as Hp.
    replace (2 ^ 53) with (2 * two52) by reflexivity. nia. }
  replace (e + Zpos p) with (fexp prec emax (Zdigits2 m + e)) by lia.
  split; [lia|].
  pose proof (pow2_pos (- fexp prec emax (Zdigits2 m + e)) ltac:(lia)) as Hp.
  apply iter_shr_1_up; [nia | now rewrite shr_m_of_loc |].
  rewrite up_of_loc.
  replace (- e) with (- fexp prec emax (Zdigits2 m + e) + Zpos p) in H by lia.
  rewrite pow2_split in H by lia. lia.
Qed.

Lemma round_nearest_even_up (mrs : shr_record) :
  shr_m mrs <= round_nearest_even (shr_m mrs) (loc_of_shr_record mrs) <= up mrs.
Proof.
  destruct mrs as [m [|] [|]]; unfold up;
    cbn [loc_of_shr_record round_nearest_even shr_m shr_r shr_s orb]; try lia.
  destruct (Z.even m); lia.
Qed.

Lemma binary_round_aux_below (sx : bool) (m e : Z) (l : location) (c : Z) :
  0 <= m -> e <= 0 -> 0 < c <= two52 ->
  m + inexact l <= c * 2 ^ (- e) ->
  match binary_round_aux prec emax sx m e l with
  | S754_zero s => s = sx
  | S754_finite s m' e' => s = sx /\ e' <= 0 /\ Zpos m' <= c * 2 ^ (- e')
  | _ => False
  end.
Proof.
  intros Hm He Hc H. unfold binary_round_aux.
  destruct (shr_fexp_below m e l c Hm He Hc H) as (He1 & Hm1 & Hup1).
  destruct (shr_fexp prec emax m e l) as [mrs1 e1]. cbn [fst snd] in *.
  pose proof (round_nearest_even_up mrs1) as Hr.
  set (m1 := round_nearest_even (shr_m mrs1) (loc_of_shr_record mrs1)) in *.
  destruct (shr_fexp_below m1 e1 loc_Exact c ltac:(lia) He1 Hc ltac:(cbn [inexact]; lia))
    as (He2 & Hm2 & Hup2).
  destruct (shr_fexp prec emax m1 e1 loc_Exact) as [mrs2 e2]. cbn [fst snd] in *.
  assert (Hle : shr_m mrs2 <= up mrs2) by (unfold up; destruct (shr_r mrs2 || shr_s mrs2); lia).
  destruct (shr_m mrs2) as [|p|p]; [reflexivity | | lia].
  replace (e2 <=? emax - prec) with true by (symmetry; apply Z.leb_le; unfold emax, prec; lia).
  repeat split; lia.
Qed.

Lemma round_below (sx : bool) (m e : Z) (l : location) (c : Z) :
  0 <= m -> e <= 0 -> 0 < c <= two52 ->
  m + inexact l <= c * 2 ^ (- e) ->
  below c (binary_round_aux prec emax false m e l).
Proof.
  intros Hm He Hc H.
  pose proof (binary_round_aux_below false m e l c Hm He Hc H) as Hb.
  destruct (binary_round_aux prec emax false m e l) as [s|s| |s m' e']; cbn [below]; auto.
  destruct Hb as (-> & Hb). exact Hb.
Qed.

Lemma iter_xO (m d : positive) : Zpos (Pos.iter xO m d) = Zpos m * 2 ^ Zpos d.
Proof.
  induction d as [|d IH] using Pos.peano_ind.
  - cbn [Pos.iter]. rewrite Pos2Z.inj_xO. change (2 ^ 1) with 2. lia.
  - rewrite Pos.iter_succ, Pos2Z.inj_xO, IH, Pos2Z.inj_succ, (pow2_step (Z.succ (Zpos d))) by lia.
    replace (Z.succ (Zpos d) - 1) with (Zpos d) by lia. lia.
Qed.

Lemma shl_align_spec (m : positive) (e e' : Z) :
  snd (shl_align m e e') = Z.min e e'
  /\ Zpos (fst (shl_align m e e')) = Zpos m * 2 ^ (e - Z.min e e').
Proof.
  unfold shl_align. destruct (e' - e) as [|d|d] eqn:E; cbn [fst snd].
  - replace (Z.min e e') with e by lia. rewrite Z.sub_diag. split; lia.
  - replace (Z.min e e') with e by lia. rewrite Z.sub_diag. split; lia.
  - replace (Z.min e e') with e' by lia. split; [reflexivity|].
    rewrite iter_xO. f_equal. f_equal. lia.
Qed.

Lemma binary_normalize_below (M e c : Z) :
  0 <= M -> e <= 0 -> 0 < c <= two52 -> M <= c * 2 ^ (- e) ->
  below c (binary_normalize prec emax M e false).
Proof.
  intros HM He Hc H. destruct M as [|p|p]; [exact I | | lia].
  cbn [binary_normalize]. unfold binary_round.
  destruct (shl_align_spec p e (fexp prec emax (Zpos (digits2_pos p) + e))) as [Hs Hf].
  destruct (shl_align p e (fexp prec emax (Zpos (digits2_pos p) + e))) as [mz ez].
  cbn [fst snd] in *.
  apply round_below; [exact true | lia | lia | exact Hc |].
  cbn [inexact]. rewrite Z.add_0_r, Hf, <- Hs.
  replace (- ez) with (- e + (e - ez)) by lia. rewrite pow2_split by lia.
  pose proof (pow2_pos (e - ez) ltac:(lia)). nia.
Qed.

Lemma valid_finite (s : bool) (m : positive) (e : Z) :
  valid_binary (S754_finite s m e) = true ->
  Zpos m < 2 * two52 /\ (-1074 < e -> two52 <= Zpos m).
Proof.
  cbn [SpecFloat.valid_binary].
  unfold bounded, canonical_mantissa, fexp, SpecFloat.emin, prec, emax.
  intros H. apply andb_true_iff in H. destruct H as [H _]. apply Z.eqb_eq in H.
  pose proof (digits2_pos_bounds m) as Hd. split.
  - assert (Hle : 2 ^ Zpos (digits2_pos m) <= 2 ^ 53) by (apply Z.pow_le_mono_r; lia).
    replace (2 ^ 53) with (2 * two52) in Hle by reflexivity. lia.
  - intros He. assert (E : Zpos (digits2_pos m) = 53) by lia.
    rewrite E in Hd. replace (2 ^ (53 - 1)) with two52 in Hd by reflexivity. lia.
Qed.

Lemma pow2_ge_two53 (e : Z) : e < -52 -> 2 * two52 <= 2 ^ (- e).
Proof.
  intros H. replace (2 * two52) with (2 ^ 53) by reflexivity.
  apply Z.pow_le_mono_r; lia.
Qed.

(** The order of two finite numbers of the same sign, read on the pairs. *)
Lemma SFleb_positive (m1 m2 : positive) (e1 e2 : Z) :
  SFleb (S754_finite false m1 e1) (S754_finite false m2 e2) = true <->
  e1 < e2 \/ (e1 = e2 /\ Zpos m1 <= Zpos m2).
Proof.
  unfold SFleb, SFcompare. fold (Pos.compare m1 m2).
  destruct (Z.compare_spec e1 e2) as [E|E|E].
  - destruct (Pos.compare_spec m1 m2) as [F|F|F].
    + subst. split; [intros _; right; split; [reflexivity | apply Z.le_refl] | reflexivity].
    + apply Pos2Z.pos_lt_pos in F. split; [intros _; right; split; [exact E | lia] | reflexivity].
    + apply Pos2Z.pos_lt_pos in F. split; [discriminate | intros [H|[_ H]]; lia].
  - split; [intros _; left; exact E | reflexivity].
  - split; [discriminate | intros [H|[H _]]; lia].
Qed.

Lemma SFleb_negative (m1 m2 : positive) (e1 e2 : Z) :
  SFleb (S754_finite true m1 e1) (S754_finite true m2 e2) = true ->
  e2 < e1 \/ (e1 = e2 /\ Zpos m2 <= Zpos m1).
Proof.
  unfold SFleb, SFcompare. fold (Pos.compare m1 m2).
  destruct (Z.compare_spec e1 e2) as [E|E|E].
  - destruct (Pos.compare_spec m1 m2) as [F|F|F]; cbn [CompOpp].
    + subst. intros _. right. split; [reflexivity | apply Z.le_refl].
    + discriminate.
    + apply Pos2Z.pos_lt_pos in F. intros _. right. split; [exact E | lia].
  - discriminate.
  - intros _. left. exact E.
Qed.

(** A valid finite number between -1 and 1. *)
Lemma unit_interval (s : bool) (m : positive) (e : Z) :
  valid_binary (S754_finite s m e) = true ->
  SFleb SF_minus_one (S754_finite s m e) = true ->
  SFleb (S754_finite s m e) SF_one = true ->
  e <= -52 /\ Zpos m <= 2 ^ (- e).
Proof.
  intros Hv Hlo Hhi. destruct (valid_finite s m e Hv) as [Hm _].
  assert (H : e < -52 \/ (e = -52 /\ Zpos m <= two52)).
  { destruct s.
    - apply SFleb_negative in Hlo. destruct Hlo as [H|[H1 H2]]; [left; exact H | right].
      split; [symmetry; exact H1 | exact H2].
    - apply SFleb_positive in Hhi. exact Hhi. }
  destruct H as [H|[-> H]].
  - split; [lia|]. pose proof (pow2_ge_two53 e H). lia.
  - split; [lia|]. exact H.
Qed.

Lemma add_one_below (x : spec_float) :
  valid_binary x = true ->
  SFleb SF_minus_one x = true -> SFleb x SF_one = true ->
  below 2 (SF64add x SF_one).
Proof.
  intros Hv Hlo Hhi. destruct x as [s|s| |s m e].
  - cbn. split; [lia | reflexivity || (change (2 ^ (- -52)) with two52; lia)].
  - destruct s; discriminate.
  - discriminate.
  - destruct (unit_interval s m e Hv Hlo Hhi) as [He Hm].
    unfold SF64add, SFadd, SF_one. replace (Z.min e (-52)) with e by lia.
    destruct (shl_align_spec m e e) as [_ H1].
    destruct (shl_align_spec 4503599627370496 (-52) e) as [_ H2].
    rewrite Z.min_id, Z.sub_diag in H1. replace (Z.min (-52) e) with e in H2 by lia.
    assert (H3 : Zpos (fst (shl_align 4503599627370496 (-52) e)) = 2 ^ (- e)).
    { rewrite H2. replace (- e) with (52 + (-52 - e)) by lia.
      rewrite pow2_split by lia. reflexivity. }
    pose proof (pow2_pos (- e) ltac:(lia)) as Hp.
    apply binary_normalize_below; [ | lia | lia | ];
      rewrite H3; destruct s; cbn [cond_Zopp]; change (2 ^ 0) with 1 in H1; lia.
Qed.

Lemma div_two_below (y : spec_float) : below 2 y -> below 1 (SF64div y SF_two).
Proof.
  destruct y as [s|s| |[|] m e]; cbn [below]; try tauto; try (intros _; exact I).
  intros [He Hm]. unfold SF64div, SFdiv, SF_two, SFdiv_core_binary.
    replace (Zdigits2 4503599627370496) with 53 by reflexivity.
    set (e' := Z.min (fexp prec emax (Zdigits2 (Zpos m) + e - (53 + -51))) (e - -51)).
    pose proof (pow2_pos (- e) ltac:(lia)) as Hp.
    assert (He' : e' <= 0).
    { assert (H : fexp prec emax (Zdigits2 (Zpos m) + e - (53 + -51)) <= 0); [|lia].
      apply fexp_nonpos.
      assert (Zdigits2 (Zpos m) <= 2 + - e); [|lia].
      apply Zdigits2_le; [|lia]. rewrite pow2_split by lia. change (2 ^ 2) with 4. lia. }
    set (m' := match e - -51 - e' with
               | 0 => Zpos m
               | Zpos _ => Z.shiftl (Zpos m) (e - -51 - e')
               | Zneg _ => 0
               end).
    assert (Hm' : 0 <= m' <= 4503599627370496 * 2 ^ (- e')).
    { assert (E : m' = Zpos m * 2 ^ (e - -51 - e')).
      { subst m'. destruct (e - -51 - e') as [|p|p] eqn:E; [change (2 ^ 0) with 1; lia | | lia].
        apply Z.shiftl_mul_pow2. lia. }
      rewrite E. pose proof (pow2_pos (e - -51 - e') ltac:(lia)) as Hq.
      split; [lia|].
      replace (4503599627370496 * 2 ^ (- e')) with (2 * (2 ^ (- e) * 2 ^ (e - -51 - e'))).
      - nia.
      - rewrite <- pow2_split by lia. replace (- e + (e - -51 - e')) with (51 + - e') by lia.
        rewrite pow2_split by lia. change (2 ^ 51) with 2251799813685248. lia. }
    pose proof (Z_div_mod m' 4503599627370496 ltac:(lia)) as Hdiv.
    destruct (Z.div_eucl m' 4503599627370496) as [q r]. destruct Hdiv as [Hq Hr].
    apply round_below; [exact true | nia | exact He' | lia |].
    unfold new_location. replace (Z.even 4503599627370496) with true by reflexivity.
    unfold new_location_even. destruct (Z.eqb_spec r 0) as [->|Hne]; cbn [inexact]; nia.
Qed.

Lemma mul_hundred_below (z : spec_float) : below 1 z -> below 100 (SF64mul z SF_hundred).
Proof.
  destruct z as [s|s| |[|] m e]; cbn [below]; try tauto; try (intros _; exact I).
  intros [He Hm]. unfold SF64mul, SFmul, SF_hundred. cbn [xorb].
    pose proof (pow2_pos (- e) ltac:(lia)) as Hp.
    apply round_below; [exact true | lia | lia | lia |].
    cbn [inexact]. rewrite Pos2Z.inj_mul.
    replace (- (e + -46)) with (- e + 46) by lia. rewrite pow2_split by lia.
    change (2 ^ 46) with 70368744177664. nia.
Qed.

Lemma below_hundred_leb (w : spec_float) :
  valid_binary w = true -> below 100 w -> SFleb w SF_hundred = true.
Proof.
  destruct w as [s|s| |[|] m e]; cbn [below]; try tauto; try (intros _ _; reflexivity).
  intros Hv [He Hm]. apply SFleb_positive.
    destruct (valid_finite false m e Hv) as [_ Hn].
    destruct (Z.lt_trichotomy e (-46)) as [H|[H|H]]; [left; exact H | right | exfalso].
    + subst e. split; [reflexivity|]. change (2 ^ (- -46)) with 70368744177664 in Hm. lia.
    + assert (2 ^ (- e) <= 2 ^ 45) by (apply Z.pow_le_mono_r; lia).
      change (2 ^ 45) with 35184372088832 in *. specialize (Hn ltac:(lia)). lia.
Qed.

Lemma below_zero_leb (c : Z) (w : spec_float) : below c w -> SFleb (S754_zero false) w = true.
Proof. destruct w as [s|s| |[|] m e]; cbn [below]; try tauto; reflexivity. Qed.

End Binary64Facts.

Example sentimentPercent_examples :
  sentimentPercent (-1) = 0%float /\ sentimentPercent 0 = 50%float
  /\ sentimentPercent 1 = 100%float /\ sentimentPercent 0.5 = 75%float
  /\ sentimentPercent (-0.5) = 25%float.
Proof. repeat split. Qed.

(** X1. For every score between -1 and 1 (so not NaN), the width of the
    sentiment bar computed by [loadMetrics], in binary64 arithmetic, lies
    between 0 and 100; it is 0 at -1, 50 at 0 and 100 at 1. *)
Theorem sentiment_bar_within_bounds (score : float) :
  (-1 <=? score)%float = true -> (score <=? 1)%float = true ->
  ((0 <=? sentimentPercent score)%float = true
   /\ (sentimentPercent score <=? 100)%float = true)
  /\ (sentimentPercent (-1) = 0%float /\ sentimentPercent 0 = 50%float
      /\ sentimentPercent 1 = 100%float).
Proof.
  intros Hlo Hhi. split; [|repeat split].
  rewrite !leb_spec in *. unfold sentimentPercent.
  pose proof (Prim2SF_valid score) as Hv.
  pose proof (Prim2SF_valid ((score + 1) / 2 * 100)%float) as Hw.
  rewrite mul_spec, div_spec, add_spec in *.
  change (Prim2SF 1) with Binary64.SF_one in *.
  change (Prim2SF (-1)) with Binary64.SF_minus_one in *.
  change (Prim2SF 2) with Binary64.SF_two in *.
  change (Prim2SF 100) with Binary64.SF_hundred in *.
  change (Prim2SF 0) with (S754_zero false).
  pose proof (Binary64Facts.mul_hundred_below _
                (Binary64Facts.div_two_below _ (Binary64Facts.add_one_below _ Hv Hlo Hhi))) as Hb.
  split; [eapply Binary64Facts.below_zero_leb, Hb | apply Binary64Facts.below_hundred_leb; assumption].
Qed.

Lemma sentiment_bar_within_bounds_witness :
  (0 <=? sentimentPercent 0.25)%float = true /\ (sentimentPercent 0.25 <=? 100)%float = true.
Proof.
  destruct (sentiment_bar_within_bounds 0.25%float eq_refl eq_refl) as [H _]. exact H.
Defined.

(** ** Metrics: what a failing run sends *)

(** X2. When the metrics request of [loadMetrics] fails, the analysis request
    is never sent, whatever it would have answered: the run makes one
    request and one console report.  When the metrics request succeeds and
    the analysis request fails, both were sent, in that order.  Either way
    the container ends with the failure message, not with the loader. *)
Theorem loadMetrics_failure_requests (symbol : string) (rm : fetched Metrics.t)
    (ra : fetched Analysis.t) (s : Page) :
  (awaited rm = None ->
   emitted s (loadMetrics symbol rm ra s)
   = [ Fetch "GET" (API_BASE ++ "/metrics/" ++ symbol) None;
       ConsoleError "Error loading metrics:" ])
  /\ (awaited rm <> None -> awaited ra = None ->
      emitted s (loadMetrics symbol rm ra s)
      = [ Fetch "GET" (API_BASE ++ "/metrics/" ++ symbol) None;
          Fetch "GET" (API_BASE ++ "/analyze/" ++ symbol) None;
          ConsoleError "Error loading metrics:" ])
  /\ (awaited rm = None \/ awaited ra = None ->
      innerHTML (loadMetrics symbol rm ra s) metricsContent = failed_metrics).
Proof.
  unfold loadMetrics, loadMetrics_metrics, loadMetrics_analysis, loadMetrics_catch,
    loadMetrics_begin.
  destruct (awaited rm) as [data|]; (split; [|split]); try congruence.
  - intros _ ->. apply emitted_extends. page. now rewrite <- !app_assoc.
  - intros [H| ->]; [discriminate | reflexivity].
  - intros _. apply emitted_extends. page. now rewrite <- !app_assoc.
  - intros _. reflexivity.
Qed.

Lemma loadMetrics_failure_requests_witness :
  emitted freshPage
    (loadMetrics "TCS" None (Some {| ok := true; json := Some sample_analysis |}) freshPage)
  = [ Fetch "GET" "http://localhost:8000/api/metrics/TCS" None;
      ConsoleError "Error loading metrics:" ].
Proof.
  destruct (loadMetrics_failure_requests "TCS" None
              (Some {| ok := true; json := Some sample_analysis |}) freshPage) as [H _].
  exact (H eq_refl).
Defined.

(** ** Stock analysis: a lookup that succeeds *)

Lemma analyzeStock_try_success (query : string) (response : Response Analysis.t)
    (data : Analysis.t) (s : Page) :
  ok response = true -> json response = Some data ->
  analyzeStock_try query (Some response) s
  = emit (ScrollIntoView "resultsSection")
      (loadNews_begin (Analysis.company_name data)
         (loadChart_begin (Analysis.symbol data) (Some "6mo")
            (loadMetrics_begin (Analysis.symbol data)
               (displayResults data
                  (set_currentCompanyName (Some (Analysis.company_name data))
                     (set_currentSymbol (Some (Analysis.symbol data)) s)))))).
Proof. intros Hok Hjson. unfold analyzeStock_try. rewrite Hok, Hjson. reflexivity. Qed.

Lemma analyzeStock_resume_session (query : string) (response : Response Analysis.t)
    (data : Analysis.t) (s : Page) :
  ok response = true -> json response = Some data ->
  currentSymbol (analyzeStock_resume query (Some response) s) = Some (Analysis.symbol data)
  /\ currentCompanyName (analyzeStock_resume query (Some response) s)
     = Some (Analysis.company_name data)
  /\ analyzeBtn (analyzeStock_resume query (Some response) s) = idle
  /\ stockInput (analyzeStock_resume query (Some response) s) = stockInput s.
Proof.
  intros Hok Hjson. unfold analyzeStock_resume.
  rewrite (analyzeStock_try_success query response data s Hok Hjson).
  repeat split.
Qed.

(** X3. When the lookup of [analyzeStock] succeeds, the two session
    variables take the symbol and the company name of the answer, the answer
    is displayed, and exactly three further requests are sent, none of them
    awaited, in the order metrics, chart for the period 6mo, news; they are
    keyed by the symbol and the (URI-encoded) company name of the answer, not
    by the query.  The metrics and news containers show their loaders, the
    other containers and the chart instances are untouched, and the button is
    enabled again. *)
Theorem analyzeStock_success (query : string) (response : Response Analysis.t)
    (data : Analysis.t) (s : Page) :
  ok response = true -> json response = Some data ->
  let s' := analyzeStock_resume query (Some response) s in
  (currentSymbol s' = Some (Analysis.symbol data)
   /\ currentCompanyName s' = Some (Analysis.company_name data)
   /\ results s' = results (displayResults data s))
  /\ emitted s s'
     = [ Fetch "GET" (API_BASE ++ "/metrics/" ++ Analysis.symbol data) None;
         Fetch "GET" (API_BASE ++ "/chart/" ++ Analysis.symbol data ++ "/6mo") None;
         Fetch "GET"
           (API_BASE ++ "/news/" ++ Str.encodeURIComponent (Analysis.company_name data)) None;
         ScrollIntoView "resultsSection" ]
  /\ (innerHTML s' metricsContent = metrics_loader
      /\ innerHTML s' newsContent = news_loader
      /\ innerHTML s' trendingStocks = innerHTML s trendingStocks
      /\ innerHTML s' comparisonResults = innerHTML s comparisonResults)
  /\ (analyzeBtn s' = idle /\ charts s' = charts s /\ currentChart s' = currentChart s).
Proof.
  intros Hok Hjson s'. subst s'. unfold analyzeStock_resume.
  rewrite (analyzeStock_try_success query response data s Hok Hjson).
  unfold loadNews_begin, loadChart_begin, loadMetrics_begin, displayResults.
  split; [repeat split|]. split; [|repeat split].
  apply emitted_extends. page. now rewrite <- !app_assoc.
Qed.

Lemma analyzeStock_success_witness :
  emitted freshPage
    (analyzeStock_resume "tcs" (Some {| ok := true; json := Some sample_analysis |}) freshPage)
  = [ Fetch "GET" "http://localhost:8000/api/metrics/TCS" None;
      Fetch "GET" "http://localhost:8000/api/chart/TCS/6mo" None;
      Fetch "GET" "http://localhost:8000/api/news/Tata%20Consultancy%20Services" None;
      ScrollIntoView "resultsSection" ].
Proof.
  destruct (analyzeStock_success "tcs" {| ok := true; json := Some sample_analysis |}
              sample_analysis freshPage eq_refl eq_refl) as (_ & H & _).
  exact H.
Defined.

(** X14. Nothing ties an answer to the latest query: with two lookups in
    flight (the second started by the Enter key while the button was
    disabled), the button is enabled as soon as the first answer arrives,
    and the session ends with the symbol and company of whichever answer
    arrives last, here the one of the older query, while the search field
    still holds the newer text. *)
Theorem analyzeStock_last_answer_wins (older newer : string)
    (answer_older answer_newer : Response Analysis.t) (data_older data_newer : Analysis.t)
    (s : Page) :
  ok answer_older = true -> json answer_older = Some data_older ->
  ok answer_newer = true -> json answer_newer = Some data_newer ->
  Str.is_empty (Str.trim older) = false ->
  Str.is_empty (Str.trim newer) = false ->
  let s1 := fst (analyzeStock_begin (type_stockInput older s)) in
  let s2 := fst (stockInput_keypress "Enter" (type_stockInput newer s1)) in
  let s3 := analyzeStock_resume (Str.trim newer) (Some answer_newer) s2 in
  let s4 := analyzeStock_resume (Str.trim older) (Some answer_older) s3 in
  (disabled (analyzeBtn s1) = true /\ disabled (analyzeBtn s2) = true)
  /\ filter is_fetch (emitted s s2)
     = [ Fetch "GET" (API_BASE ++ "/analyze/" ++ Str.encodeURIComponent (Str.trim older)) None;
         Fetch "GET" (API_BASE ++ "/analyze/" ++ Str.encodeURIComponent (Str.trim newer)) None ]
  /\ analyzeBtn s3 = idle
  /\ currentSymbol s4 = Some (Analysis.symbol data_older)
  /\ currentCompanyName s4 = Some (Analysis.company_name data_older)
  /\ stockInput s4 = newer.
Proof.
  intros Ho1 Ho2 Hn1 Hn2 Eo En s1 s2 s3 s4.
  assert (E1 : s1 = emit (Fetch "GET" (API_BASE ++ "/analyze/"
                                       ++ Str.encodeURIComponent (Str.trim older)) None)
                      (set_analyzeBtn loading (type_stockInput older s))).
  { subst s1. unfold analyzeStock_begin, type_stockInput. page. now rewrite Eo. }
  assert (E2 : s2 = emit (Fetch "GET" (API_BASE ++ "/analyze/"
                                       ++ Str.encodeURIComponent (Str.trim newer)) None)
                      (set_analyzeBtn loading (type_stockInput newer s1))).
  { subst s2. unfold stockInput_keypress, analyzeStock_begin, type_stockInput.
    cbn [String.eqb Ascii.eqb Bool.eqb]. page. now rewrite En. }
  destruct (analyzeStock_resume_session (Str.trim newer) answer_newer data_newer s2 Hn1 Hn2)
    as (_ & _ & Hb3 & Hi3).
  destruct (analyzeStock_resume_session (Str.trim older) answer_older data_older s3 Ho1 Ho2)
    as (Hs4 & Hc4 & _ & Hi4).
  fold s3 in Hb3, Hi3. fold s4 in Hs4, Hc4, Hi4.
  split; [rewrite E2, E1; split; reflexivity|].
  split.
  { erewrite emitted_extends
      by (rewrite E2, E1; unfold type_stockInput; page; rewrite <- !app_assoc; reflexivity).
    reflexivity. }
  split; [exact Hb3|]. split; [exact Hs4|]. split; [exact Hc4|].
  rewrite Hi4, Hi3, E2. reflexivity.
Qed.

Lemma analyzeStock_last_answer_wins_witness :
  currentSymbol
    (analyzeStock_resume "TCS" (Some {| ok := true; json := Some sample_analysis |})
       (analyzeStock_resume "INFY"
          (Some {| ok := true;
                   json := Some {| Analysis.symbol := "INFY"; Analysis.company_name := "Infosys";
                                   Analysis.exchange := "NSE"; Analysis.decision := "BUY";
                                   Analysis.explanation := "";
                                   Analysis.sentiment_score := 0.5%float;
                                   Analysis.price_change_6m := 2%float |} |})
          (fst (stockInput_keypress "Enter"
                  (type_stockInput "INFY"
                     (fst (analyzeStock_begin (type_stockInput "TCS" freshPage))))))))
  = Some "TCS".
Proof.
  destruct (analyzeStock_last_answer_wins "TCS" "INFY"
              {| ok := true; json := Some sample_analysis |}
              {| ok := true;
                 json := Some {| Analysis.symbol := "INFY"; Analysis.company_name := "Infosys";
                                 Analysis.exchange := "NSE"; Analysis.decision := "BUY";
                                 Analysis.explanation := "";
                                 Analysis.sentiment_score := 0.5%float;
                                 Analysis.price_change_6m := 2%float |} |}
              sample_analysis _ freshPage eq_refl eq_refl eq_refl eq_refl eq_refl eq_refl)
    as (_ & _ & _ & H & _).
  exact H.
Defined.

(** ** Stock analysis: blank input *)

Lemma strip_any_white (space rest : string) :
  In space Str.white_space -> Str.strip_any Str.white_space (space ++ rest) = Some rest.
Proof.
  intros H. unfold Str.white_space in H. cbn [map In] in H.
  repeat (destruct H as [<-|H]; [reflexivity|]). contradiction.
Qed.

Lemma white_space_length (space : string) :
  In space Str.white_space -> 1 <= String.length space.
Proof.
  intros H. unfold Str.white_space in H. cbn [map In] in H.
  repeat (destruct H as [<-|H]; [cbn; lia|]). contradiction.
Qed.

Lemma drop_leading_white (w : string) :
  white w ->
  forall fuel, String.length w <= fuel -> Str.drop_leading Str.white_space fuel w = "".
Proof.
  induction 1 as [|space rest Hin Hrest IH]; intros fuel Hf.
  - destruct fuel; reflexivity.
  - rewrite length_append in Hf. pose proof (white_space_length space Hin) as Hpos.
    destruct fuel as [|fuel]; [lia|].
    cbn [Str.drop_leading]. rewrite (strip_any_white space rest Hin). apply IH. lia.
Qed.

Lemma trim_white (w : string) : white w -> Str.trim w = "".
Proof.
  intros H. unfold Str.trim, Str.trimStart.
  rewrite (drop_leading_white w H (String.length w) (le_n _)). reflexivity.
Qed.

Example trim_examples :
  Str.trim (Str.of_bytes [32; 9; 10; 13]) = ""
  /\ Str.trim (Str.of_bytes [194; 160; 227; 128; 128; 239; 187; 191]) = ""
  /\ Str.trim (Str.of_bytes [32; 194; 160; 84; 67; 83; 32; 9]) = "TCS"
  /\ Str.trim "Tata  Motors " = "Tata  Motors".
Proof. repeat split. Qed.

(** X4. When the search field is empty or holds white space only (any of
    the code points that [trim] strips: the ASCII ones, U+00A0, U+3000,
    U+FEFF and the others), [analyzeStock] raises the alert 'Please enter a
    stock name or symbol' and returns: no request is sent and nothing of the
    page changes, neither the session variables nor the button nor any
    container. *)
Theorem analyzeStock_blank_input (r : fetched Analysis.t) (s : Page) :
  white (stockInput s) ->
  analyzeStock r s = emit (Alert "Please enter a stock name or symbol") s
  /\ snd (analyzeStock_begin s) = None
  /\ emitted s (analyzeStock r s) = [Alert "Please enter a stock name or symbol"]
  /\ (currentSymbol (analyzeStock r s) = currentSymbol s
      /\ currentCompanyName (analyzeStock r s) = currentCompanyName s
      /\ analyzeBtn (analyzeStock r s) = analyzeBtn s
      /\ results (analyzeStock r s) = results s
      /\ forall c, innerHTML (analyzeStock r s) c = innerHTML s c).
Proof.
  intros H. unfold analyzeStock, analyzeStock_begin. rewrite (trim_white _ H).
  cbn [Str.is_empty fst snd]. repeat apply conj; try reflexivity.
  apply emitted_extends. reflexivity.
Qed.

Ltac in_white_space := cbn; repeat first [left; reflexivity | right].

(** A space, a no-break space (U+00A0), a tab and an ideographic space (U+3000). *)
Lemma analyzeStock_blank_input_witness :
  white (Str.of_bytes [32; 194; 160; 9; 227; 128; 128])
  /\ emitted (type_stockInput (Str.of_bytes [32; 194; 160; 9; 227; 128; 128]) freshPage)
       (analyzeStock None
          (type_stockInput (Str.of_bytes [32; 194; 160; 9; 227; 128; 128]) freshPage))
     = [Alert "Please enter a stock name or symbol"].
Proof.
  assert (W : white (Str.of_bytes [32; 194; 160; 9; 227; 128; 128])).
  { apply (white_more (Str.of_bytes [32]) (Str.of_bytes [194; 160; 9; 227; 128; 128]));
      [in_white_space|].
    apply (white_more (Str.of_bytes [194; 160]) (Str.of_bytes [9; 227; 128; 128]));
      [in_white_space|].
    apply (white_more (Str.of_bytes [9]) (Str.of_bytes [227; 128; 128])); [in_white_space|].
    apply (white_more (Str.of_bytes [227; 128; 128]) ""); [in_white_space|].
    exact white_empty. }
  split; [exact W|].
  destruct (analyzeStock_blank_input None
              (type_stockInput (Str.of_bytes [32; 194; 160; 9; 227; 128; 128]) freshPage) W)
    as (_ & _ & H & _).
  exact H.
Defined.

(** ** The trending cards' handler *)

(** X5. [quickAnalyze symbol name] writes the symbol into the search field
    and analyzes it: unless the symbol is blank after trimming, the lookup
    request for the trimmed, URI-encoded symbol is sent and the button shows
    its loader.  The name it is given plays no part. *)
Theorem quickAnalyze_uses_symbol (symbol name : string) (s : Page) :
  Str.is_empty (Str.trim symbol) = false ->
  stockInput (fst (quickAnalyze symbol name s)) = symbol
  /\ snd (quickAnalyze symbol name s) = Some (Str.trim symbol)
  /\ emitted s (fst (quickAnalyze symbol name s))
     = [Fetch "GET" (API_BASE ++ "/analyze/" ++ Str.encodeURIComponent (Str.trim symbol)) None]
  /\ analyzeBtn (fst (quickAnalyze symbol name s)) = loading
  /\ (forall other, quickAnalyze symbol other s = quickAnalyze symbol name s)
  /\ quickAnalyze symbol name s = analyzeStock_begin (type_stockInput symbol s).
Proof.
  intros H. unfold quickAnalyze, type_stockInput, analyzeStock_begin. page. rewrite H. page.
  repeat apply conj; try reflexivity.
  apply emitted_extends. reflexivity.
Qed.

Lemma quickAnalyze_uses_symbol_witness :
  emitted freshPage (fst (quickAnalyze "M&M" "Mahindra" freshPage))
  = [Fetch "GET" "http://localhost:8000/api/analyze/M%26M" None].
Proof.
  destruct (quickAnalyze_uses_symbol "M&M" "Mahindra" freshPage eq_refl) as (_ & _ & H & _).
  exact H.
Defined.

(** ** The period buttons *)

(** X6. A click on a period button does nothing at all while no stock is
    selected ([currentSymbol] null or empty); once a stock is selected it
    marks the clicked button active and sends exactly one request, for the
    chart of the selected symbol over the button's period (6mo when the
    button carries none), leaving the chart instances as they are until the
    answer comes. *)
Theorem periodBtn_click_needs_symbol (period : option string) (s : Page) :
  (currentSymbol s = None \/ currentSymbol s = Some "" -> periodBtn_click period s = s)
  /\ (forall symbol, currentSymbol s = Some symbol -> symbol <> "" ->
      emitted s (periodBtn_click period s)
      = [Fetch "GET" (API_BASE ++ "/chart/" ++ symbol ++ "/" ++ period_or_default period) None]
      /\ activePeriod (periodBtn_click period s) = period
      /\ charts (periodBtn_click period s) = charts s
      /\ currentChart (periodBtn_click period s) = currentChart s
      /\ currentSymbol (periodBtn_click period s) = Some symbol).
Proof.
  unfold periodBtn_click. split.
  - intros [-> | ->]; reflexivity.
  - intros symbol E Hne. rewrite E. destruct symbol as [|c symbol]; [congruence|].
    cbn [Str.is_empty]. unfold loadChart_begin. repeat apply conj; try reflexivity.
    + apply emitted_extends. reflexivity.
    + exact E.
Qed.

(** ** The decision icon away from BUY and SELL *)

Lemma toLowerCase_idempotent (d : string) :
  Str.toLowerCase (Str.toLowerCase d) = Str.toLowerCase d.
Proof.
  induction d as [|c d IH]; [reflexivity|]. cbn [Str.toLowerCase]. rewrite IH. f_equal.
  destruct c as [[|] [|] [|] [|] [|] [|] [|] [|]]; reflexivity.
Qed.

(** X13. [displayResults] compares the decision with 'BUY' and 'SELL'
    exactly, while the class of the banner is built from the decision in
    lower case: every decision other than these two strings, HOLD or not,
    gets the pause icon, and a decision and its lower-case form get the same
    class; so 'buy' is shown with the class of BUY and the icon of HOLD. *)
Theorem displayResults_other_decisions (data : Analysis.t) (s : Page) :
  Analysis.decision data <> "BUY" -> Analysis.decision data <> "SELL" ->
  decision_icon (results (displayResults data s)) = icon_pause
  /\ (forall data', Analysis.decision data' = Str.toLowerCase (Analysis.decision data) ->
        decisionBanner_className (results (displayResults data' s))
        = decisionBanner_className (results (displayResults data s)))
  /\ (Analysis.decision data = "buy" ->
        decisionBanner_className (results (displayResults data s))
        = "decision-banner decision-buy").
Proof.
  intros Hb Hs. rewrite results_displayResults. cbn [decision_icon decisionBanner_className].
  split; [|split].
  - unfold decision_icon_of.
    apply String.eqb_neq in Hb. apply String.eqb_neq in Hs. now rewrite Hb, Hs.
  - intros data' E. rewrite results_displayResults. cbn [decisionBanner_className].
    now rewrite E, toLowerCase_idempotent.
  - intros ->. reflexivity.
Qed.

Lemma displayResults_other_decisions_witness :
  decision_icon
    (results (displayResults
       {| Analysis.symbol := "TCS"; Analysis.company_name := "TCS"; Analysis.exchange := "NSE";
          Analysis.decision := "buy"; Analysis.explanation := "";
          Analysis.sentiment_score := 0%float; Analysis.price_change_6m := 0%float |}
       freshPage))
  = icon_pause.
Proof.
  apply (displayResults_other_decisions
    {| Analysis.symbol := "TCS"; Analysis.company_name := "TCS"; Analysis.exchange := "NSE";
       Analysis.decision := "buy"; Analysis.explanation := "";
       Analysis.sentiment_score := 0%float; Analysis.price_change_6m := 0%float |}
    freshPage); discriminate.
Defined.

Lemma periodBtn_click_needs_symbol_witness :
  emitted (set_currentSymbol (Some "TCS") freshPage)
    (periodBtn_click (Some "1y") (set_currentSymbol (Some "TCS") freshPage))
  = [Fetch "GET" "http://localhost:8000/api/chart/TCS/1y" None].
Proof.
  destruct (periodBtn_click_needs_symbol (Some "1y") (set_currentSymbol (Some "TCS") freshPage))
    as [_ H].
  destruct (H "TCS" eq_refl ltac:(discriminate)) as [H' _]. exact H'.
Defined.

(** ** Counting what a list was rendered into *)

Lemma count_lit_app (t : string) (a b : html) :
  count_lit t (a ++ b)%list = count_lit t a + count_lit t b.
Proof. unfold count_lit. now rewrite filter_app, length_app. Qed.

Lemma count_lit_flat_map {A : Type} (t : string) (f : A -> html) (l : list A) :
  (forall x, count_lit t (f x) = 1) -> count_lit t (flat_map f l) = List.length l.
Proof.
  intros H. induction l as [|x l IH]; [reflexivity|].
  cbn [flat_map List.length]. now rewrite count_lit_app, H, IH.
Qed.

Lemma shows_failure_flat_map {A : Type} (f : A -> html) (l : list A) :
  (forall x, shows_failure (f x) = false) -> shows_failure (flat_map f l) = false.
Proof.
  intros H. induction l as [|x l IH]; [reflexivity|].
  cbn [flat_map]. unfold shows_failure in *. now rewrite existsb_app, H, IH.
Qed.

(** ** Trending stocks: what is rendered *)

Lemma count_trending_card (stock : Trending.stock) :
  count_lit trending_card_open (trending_card stock) = 1.
Proof. reflexivity. Qed.

(** X7. When the body of the trending answer parses, whatever the status of
    the response, [loadTrendingStocks] makes its one request, reports no
    error and shows no failure message: a body without [trending_stocks], or
    with an empty list, gives 'No trending stocks available'; a non-empty
    list gives one card per stock, in the order of the list. *)
Theorem loadTrendingStocks_rendering (response : Response Trending.t) (data : Trending.t)
    (s : Page) :
  json response = Some data ->
  let s' := loadTrendingStocks (Some response) s in
  emitted s s' = [Fetch "GET" (API_BASE ++ "/trending") None]
  /\ shows_failure (innerHTML s' trendingStocks) = false
  /\ (forall c, c <> trendingStocks -> innerHTML s' c = innerHTML s c)
  /\ match Trending.trending_stocks data with
     | Some (stock :: rest) =>
         innerHTML s' trendingStocks = flat_map trending_card (stock :: rest)
         /\ count_lit trending_card_open (innerHTML s' trendingStocks) = S (List.length rest)
     | _ => innerHTML s' trendingStocks = no_trending
     end.
Proof.
  intros Hjson s'. subst s'.
  unfold loadTrendingStocks, loadTrendingStocks_resume, loadTrendingStocks_begin, awaited.
  rewrite Hjson.
  assert (Hother : forall h (c : container), c <> trendingStocks ->
            innerHTML (set_innerHTML trendingStocks h
                         (emit (Fetch "GET" (API_BASE ++ "/trending") None) s)) c
            = innerHTML s c)
    by (intros h [] Hc; try reflexivity; congruence).
  destruct (Trending.trending_stocks data) as [[|stock rest]|]; cbn [List.length Nat.ltb Nat.leb].
  - repeat apply conj; try reflexivity; [apply emitted_extends; reflexivity | apply Hother].
  - repeat apply conj; try reflexivity.
    + apply emitted_extends. reflexivity.
    + page. cbn [container_eqb]. apply shows_failure_flat_map. reflexivity.
    + apply Hother.
    + page. cbn [container_eqb]. apply (count_lit_flat_map _ _ (stock :: rest)).
      exact count_trending_card.
  - repeat apply conj; try reflexivity; [apply emitted_extends; reflexivity | apply Hother].
Qed.

Lemma loadTrendingStocks_rendering_witness :
  innerHTML
    (loadTrendingStocks
       (Some {| ok := false; json := Some {| Trending.trending_stocks := None |} |}) freshPage)
    trendingStocks
  = no_trending.
Proof.
  destruct (loadTrendingStocks_rendering
              {| ok := false; json := Some {| Trending.trending_stocks := None |} |}
              {| Trending.trending_stocks := None |} freshPage eq_refl) as (_ & _ & _ & H).
  exact H.
Defined.

(** ** News: what is rendered *)

Lemma count_news_item (article : News.item) :
  count_lit news_item_open (news_item article) = 1.
Proof.
  unfold news_item, news_icon.
  destruct (News.sentiment article =? "positive"); [reflexivity|].
  destruct (News.sentiment article =? "negative"); reflexivity.
Qed.

Lemma shows_failure_news_item (article : News.item) : shows_failure (news_item article) = false.
Proof.
  unfold news_item, news_icon.
  destruct (News.sentiment article =? "positive"); [reflexivity|].
  destruct (News.sentiment article =? "negative"); reflexivity.
Qed.

(** X8. [loadNews] asks for the URI-encoded company name.  When the body of
    the answer parses, whatever the status of the response, no error is
    reported, the loader is replaced and no failure message is shown: a body
    without [news], or with an empty list, gives 'No recent news available
    for this stock'; a non-empty list gives one item per article, in order.
    The icon of an item is the chart going up for the sentiment 'positive',
    the chart going down for 'negative' and the information sign for every
    other string. *)
Theorem loadNews_rendering (companyName : string) (response : Response News.t)
    (data : News.t) (s : Page) :
  json response = Some data ->
  let s' := loadNews companyName (Some response) s in
  emitted s s'
  = [Fetch "GET" (API_BASE ++ "/news/" ++ Str.encodeURIComponent companyName) None]
  /\ shows_failure (innerHTML s' newsContent) = false
  /\ innerHTML s' newsContent <> news_loader
  /\ (forall c, c <> newsContent -> innerHTML s' c = innerHTML s c)
  /\ match News.news data with
     | Some (article :: rest) =>
         innerHTML s' newsContent = flat_map news_item (article :: rest)
         /\ count_lit news_item_open (innerHTML s' newsContent) = S (List.length rest)
     | _ => innerHTML s' newsContent = no_news
     end
  /\ (news_icon "positive" = icon_chart_up /\ news_icon "negative" = icon_chart_down
      /\ forall sentiment, sentiment <> "positive" -> sentiment <> "negative" ->
                           news_icon sentiment = icon_info).
Proof.
  intros Hjson s'. subst s'.
  unfold loadNews, loadNews_resume, loadNews_begin, awaited. page. rewrite Hjson.
  assert (Hother : forall h (c : container), c <> newsContent ->
            innerHTML (set_innerHTML newsContent h
                         (emit (Fetch "GET" (API_BASE ++ "/news/"
                                             ++ Str.encodeURIComponent companyName) None)
                               (set_innerHTML newsContent news_loader s))) c
            = innerHTML s c)
    by (intros h [] Hc; try reflexivity; congruence).
  assert (Hicon : news_icon "positive" = icon_chart_up /\ news_icon "negative" = icon_chart_down
                  /\ forall sentiment, sentiment <> "positive" -> sentiment <> "negative" ->
                                       news_icon sentiment = icon_info).
  { repeat split. intros sentiment Hp Hn. unfold news_icon.
    apply String.eqb_neq in Hp. apply String.eqb_neq in Hn. now rewrite Hp, Hn. }
  destruct (News.news data) as [[|article rest]|]; cbn [List.length Nat.ltb Nat.leb].
  - repeat apply conj; try reflexivity; try apply Hicon;
      [apply emitted_extends; reflexivity | discriminate | apply Hother].
  - repeat apply conj; try reflexivity; try apply Hicon.
    + apply emitted_extends. reflexivity.
    + page. cbn [container_eqb]. apply shows_failure_flat_map. exact shows_failure_news_item.
    + page. cbn [container_eqb flat_map news_item app]. discriminate.
    + apply Hother.
    + page. cbn [container_eqb]. apply (count_lit_flat_map _ _ (article :: rest)).
      exact count_news_item.
  - repeat apply conj; try reflexivity; try apply Hicon;
      [apply emitted_extends; reflexivity | discriminate | apply Hother].
Qed.

Lemma loadNews_rendering_witness :
  count_lit news_item_open
    (innerHTML
       (loadNews "Tata Motors"
          (Some {| ok := true;
                   json := Some {| News.news :=
                     Some [ {| News.headline := "Record sales"; News.sentiment := "positive" |};
                            {| News.headline := "Recall"; News.sentiment := "negative" |} ] |} |})
          freshPage)
       newsContent)
  = 2.
Proof.
  destruct (loadNews_rendering "Tata Motors"
              {| ok := true;
                 json := Some {| News.news :=
                   Some [ {| News.headline := "Record sales"; News.sentiment := "positive" |};
                          {| News.headline := "Recall"; News.sentiment := "negative" |} ] |} |}
              _ freshPage eq_refl) as (_ & _ & _ & _ & [_ H] & _).
  exact H.
Defined.

(** ** Comparison: the answer *)

Lemma count_comparison_item (stock : Comparison.summary) :
  count_lit comparison_item_open (comparison_item stock) = 1.
Proof.
  unfold comparison_item, plus_sign, decision_color, decision_icon_of.
  destruct (Comparison.decision stock =? "BUY");
    [|destruct (Comparison.decision stock =? "SELL")];
    destruct (0 <=? Comparison.price_change_6m stock)%float; reflexivity.
Qed.

(** X9. A run of [compareStocks] that is turned away by the count check does
    not touch the compare button; a run that sends its request disables it and
    shows its loader, and whatever the answer the button is enabled again when
    the run ends.  When the request or the parsing of its body fails, the
    run reports on the console and raises the alert 'Error comparing stocks.
    Please try again.', and the comparison container keeps its content and
    its visibility. *)
Theorem compareStocks_button_and_failure (r : fetched Comparison.t) (s waiting : Page) :
  compareBtn (fst (compareStocks_begin s))
  = (if snd (compareStocks_begin s) then loading else compareBtn s)
  /\ compareBtn (compareStocks r s)
     = (if snd (compareStocks_begin s) then idle else compareBtn s)
  /\ compareBtn (compareStocks_resume r waiting) = idle
  /\ (awaited r = None ->
      emitted waiting (compareStocks_resume r waiting)
      = [ ConsoleError "Error comparing stocks:";
          Alert "Error comparing stocks. Please try again." ]
      /\ (forall c, innerHTML (compareStocks_resume r waiting) c = innerHTML waiting c)
      /\ comparisonResults_display (compareStocks_resume r waiting)
         = comparisonResults_display waiting).
Proof.
  unfold compareStocks, compareStocks_begin.
  destruct (List.length (compare_entries s) <? 2)%nat;
    [|destruct (4 <? List.length (compare_entries s))%nat];
    (repeat apply conj; try reflexivity;
     try (unfold compareStocks_resume, displayComparison; destruct (awaited r); reflexivity);
     intros H; unfold compareStocks_resume; rewrite H;
     repeat apply conj; try reflexivity;
     apply emitted_extends; page; now rewrite <- app_assoc).
Qed.

Lemma count_winner_banner (best : Comparison.best) :
  count_lit comparison_item_open (winner_banner best) = 0.
Proof.
  unfold winner_banner, plus_sign.
  destruct (0 <=? Comparison.best_change best)%float; reflexivity.
Qed.

(** X10. [compareStocks] never looks at the status of the response.  When
    the body of the answer parses, the comparison container is made visible
    and the other containers are left alone.  If the body carries both
    [comparison] and [best_performer], the run raises no alert and reports
    nothing, and the container holds the grid with exactly one item per
    summary, in the order of the answer, and after it the winner banner with
    the symbol, the change and the decision of the best performer as the
    answer gives them (they are not computed from the summaries).  If the
    body lacks [comparison] or [best_performer], as an error body does, the
    container keeps the content it had, and the run reports on the console
    and raises the alert 'Error comparing stocks. Please try again.'. *)
Theorem compareStocks_rendering (r : fetched Comparison.t) (data : Comparison.t) (s : Page) :
  awaited r = Some data ->
  let s' := compareStocks_resume r s in
  comparisonResults_display s' = "block"
  /\ (forall c, c <> comparisonResults -> innerHTML s' c = innerHTML s c)
  /\ (forall (comparison : list Comparison.summary) (best : Comparison.best),
        Comparison.comparison data = Some comparison ->
        Comparison.best_performer data = Some best ->
        emitted s s' = []
        /\ innerHTML s' comparisonResults
           = (Lit ("<div class=" ++ q "comparison-grid" ++ ">")
              :: flat_map comparison_item comparison
              ++ Lit "</div>" :: winner_banner best)%list
        /\ count_lit comparison_item_open (innerHTML s' comparisonResults)
           = List.length comparison
        /\ count_lit comparison_item_open (winner_banner best) = 0
        /\ In (Sub (Comparison.best_symbol best)) (winner_banner best)
        /\ In (Num (Comparison.best_change best)) (winner_banner best)
        /\ In (Sub (Comparison.best_decision best)) (winner_banner best))
  /\ (Comparison.comparison data = None \/ Comparison.best_performer data = None ->
      emitted s s'
      = [ ConsoleError "Error comparing stocks:";
          Alert "Error comparing stocks. Please try again." ]
      /\ innerHTML s' comparisonResults = innerHTML s comparisonResults).
Proof.
  intros H s'. subst s'. unfold compareStocks_resume. rewrite H. unfold displayComparison.
  split; [|split; [|split]].
  - destruct (Comparison.comparison data), (Comparison.best_performer data); reflexivity.
  - intros c Hc.
    destruct (Comparison.comparison data), (Comparison.best_performer data);
      destruct c; try reflexivity; congruence.
  - intros comparison best -> ->. page. cbn [container_eqb].
    split; [apply emitted_extends; now rewrite app_nil_r|].
    split; [unfold comparison_block; cbn [List.concat app]; now rewrite app_nil_r|].
    split.
    { unfold comparison_block. cbn [List.concat]. rewrite !count_lit_app.
      rewrite (count_lit_flat_map _ _ _ count_comparison_item), count_winner_banner.
      cbn. lia. }
    split; [apply count_winner_banner|].
    unfold winner_banner.
    repeat split; apply in_concat; eexists;
      (split; [cbn [In]|]);
      [ left; reflexivity | cbn [In]; tauto
      | do 2 right; left; reflexivity | cbn [In]; tauto
      | do 2 right; left; reflexivity | cbn [In]; tauto ].
  - intros Hmissing.
    assert (E : match Comparison.comparison data, Comparison.best_performer data with
                | Some _, Some _ => False
                | _, _ => True
                end).
    { destruct Hmissing as [-> | ->];
        [exact I | destruct (Comparison.comparison data); exact I]. }
    destruct (Comparison.comparison data), (Comparison.best_performer data);
      try contradiction;
      (split; [apply emitted_extends; page; now rewrite <- app_assoc | reflexivity]).
Qed.

Lemma compareStocks_rendering_witness :
  count_lit comparison_item_open
    (innerHTML
       (compareStocks_resume
          (Some {| ok := true;
                   json := Some {| Comparison.comparison := Some
                     [ {| Comparison.symbol := "TCS"; Comparison.decision := "BUY";
                          Comparison.current_price := 3500%float; Comparison.currency := "INR";
                          Comparison.price_change_6m := 4%float;
                          Comparison.sentiment_score := 0.5%float |};
                       {| Comparison.symbol := "INFY"; Comparison.decision := "SELL";
                          Comparison.current_price := 1500%float; Comparison.currency := "INR";
                          Comparison.price_change_6m := (-2)%float;
                          Comparison.sentiment_score := (-0.5)%float |} ];
                     Comparison.best_performer := Some
                       {| Comparison.best_symbol := "TCS"; Comparison.best_change := 4%float;
                          Comparison.best_decision := "BUY" |} |} |})
          freshPage)
       comparisonResults)
  = 2.
Proof.
  destruct (compareStocks_rendering
    (Some {| ok := true;
                   json := Some {| Comparison.comparison := Some
                     [ {| Comparison.symbol := "TCS"; Comparison.decision := "BUY";
                          Comparison.current_price := 3500%float; Comparison.currency := "INR";
                          Comparison.price_change_6m := 4%float;
                          Comparison.sentiment_score := 0.5%float |};
                       {| Comparison.symbol := "INFY"; Comparison.decision := "SELL";
                          Comparison.current_price := 1500%float; Comparison.currency := "INR";
                          Comparison.price_change_6m := (-2)%float;
                          Comparison.sentiment_score := (-0.5)%float |} ];
                     Comparison.best_performer := Some
                       {| Comparison.best_symbol := "TCS"; Comparison.best_change := 4%float;
                          Comparison.best_decision := "BUY" |} |} |})
    _ freshPage eq_refl) as (_ & _ & H & _).
  destruct (H _ _ eq_refl eq_refl) as (_ & _ & H' & _).
  exact H'.
Defined.

Example compareStocks_error_body :
  let s := compareStocks_resume
             (Some {| ok := false;
                      json := Some {| Comparison.comparison := None;
                                      Comparison.best_performer := None |} |})
             freshPage in
  comparisonResults_display s = "block" /\ innerHTML s comparisonResults = []
  /\ log s = [ ConsoleError "Error comparing stocks:";
               Alert "Error comparing stocks. Please try again." ].
Proof. repeat split. Qed.

(** ** Chart: an answer without data *)

Lemma mark_destroyed_length (id : nat) (l : list Chart) :
  List.length (mark_destroyed id l) = List.length l.
Proof.
  revert id. induction l as [|c l IH]; intros [|id]; cbn [mark_destroyed List.length]; auto.
Qed.

Lemma loadChart_resume_without_data (r : fetched Series.t) (data : Series.t)
    (previous : nat) (s : Page) :
  awaited r = Some data -> Series.data data = None -> currentChart s = Some previous ->
  loadChart_resume r s = emit (ConsoleError "Error loading chart:") (destroy previous s).
Proof. intros Hr Hd Hc. unfold loadChart_resume. now rewrite Hr, Hc, Hd. Qed.

Lemma loadChart_resume_with_data (r : fetched Series.t) (data : Series.t)
    (points : list Series.point) (previous : nat) (s : Page) :
  awaited r = Some data -> Series.data data = Some points -> currentChart s = Some previous ->
  loadChart_resume r s
  = set_currentChart (Some (List.length (charts (destroy previous s))))
      (snd (new_Chart (map Series.date points) (map Series.price points)
              (destroy previous s))).
Proof. intros Hr Hd Hc. unfold loadChart_resume. now rewrite Hr, Hc, Hd. Qed.

(** X11. When the body of a chart answer parses but carries no [data], the
    instance recorded in [currentChart] has already been destroyed by the time
    the failure is caught: the page is left without any live chart, nothing is
    constructed, and [currentChart] still names the destroyed instance, so
    that the next successful [loadChart] destroys that instance a second time
    before constructing its chart. *)
Theorem loadChart_body_without_data (r : fetched Series.t) (data : Series.t)
    (previous : nat) (s : Page) :
  awaited r = Some data -> Series.data data = None ->
  currentChart s = Some previous -> chart_invariant s ->
  let s' := loadChart_resume r s in
  emitted s s' = [ChartDestroy previous; ConsoleError "Error loading chart:"]
  /\ live_charts s' = 0
  /\ List.length (charts s') = List.length (charts s)
  /\ currentChart s' = Some previous
  /\ (forall (r' : fetched Series.t) (data' : Series.t) (points : list Series.point),
        awaited r' = Some data' -> Series.data data' = Some points ->
        emitted s' (loadChart_resume r' s')
        = [ChartDestroy previous; ChartCreate (List.length (charts s))]
        /\ live_charts (loadChart_resume r' s') = 1).
Proof.
  intros Hr Hd Hc Hinv s'. subst s'. unfold chart_invariant in Hinv. rewrite Hc in Hinv.
  rewrite (loadChart_resume_without_data r data previous s Hr Hd Hc).
  remember (emit (ConsoleError "Error loading chart:") (destroy previous s)) as s' eqn:Es'.
  assert (Hc' : currentChart s' = Some previous) by (rewrite Es'; exact Hc).
  assert (Hcharts : charts s' = mark_destroyed previous (charts s))
    by (rewrite Es'; reflexivity).
  assert (Hlog : log s' = (log s ++ [ChartDestroy previous;
                                     ConsoleError "Error loading chart:"])%list)
    by (rewrite Es'; unfold destroy; page; now rewrite <- app_assoc).
  split; [apply emitted_extends; exact Hlog|].
  split; [unfold live_charts; now rewrite Hcharts, Hinv|].
  split; [rewrite Hcharts; apply mark_destroyed_length|]. split; [exact Hc'|].
  intros r' data' points Hr' Hd'.
  rewrite (loadChart_resume_with_data r' data' points previous s' Hr' Hd' Hc').
  unfold new_Chart, destroy. page. rewrite Hcharts, !mark_destroyed_length. split.
  - apply emitted_extends. page. now rewrite <- !app_assoc.
  - unfold live_charts. page.
    rewrite filter_app, (mark_destroyed_no_live previous _ Hinv). reflexivity.
Qed.

Lemma loadChart_body_without_data_witness :
  live_charts
    (loadChart_resume (Some {| ok := false; json := Some {| Series.data := None |} |})
       (loadChart_resume (Some {| ok := true; json := Some {| Series.data := Some [] |} |})
          freshPage))
  = 0.
Proof.
  destruct (loadChart_body_without_data
              (Some {| ok := false; json := Some {| Series.data := None |} |})
              {| Series.data := None |} 0
              (loadChart_resume (Some {| ok := true; json := Some {| Series.data := Some [] |} |})
                 freshPage)
              eq_refl eq_refl eq_refl eq_refl) as (_ & H & _).
  exact H.
Defined.

(** ** Every handler, in every order *)

Lemma page_invariant_frame (s s' : Page) :
  charts s' = charts s -> currentChart s' = currentChart s ->
  page_invariant s -> page_invariant s'.
Proof.
  unfold page_invariant, chart_invariant. intros -> ->. exact (fun H => H).
Qed.

Lemma page_invariant_chart (r : fetched Series.t) (s : Page) :
  page_invariant s -> page_invariant (loadChart_resume r s).
Proof.
  intros (Hc & Hid). split; [now apply chart_invariant_resume|].
  unfold loadChart_resume, new_Chart, destroy.
  destruct (awaited r) as [data|]; [|exact Hid].
  destruct (currentChart s) as [previous|] eqn:E; destruct (Series.data data); page;
    intros id; rewrite ?E;
    try (intros [= <-]; rewrite length_app; cbn [List.length]; lia);
    rewrite ?mark_destroyed_length; apply Hid.
Qed.

Lemma page_invariant_act (a : action) (s : Page) : page_invariant s -> page_invariant (act s a).
Proof.
  destruct a; cbn [act];
    try apply page_invariant_chart;
    apply page_invariant_frame;
    unfold loadTrendingStocks_begin, loadTrendingStocks_resume, type_stockInput,
      type_compareInputs, stockInput_keypress, quickAnalyze, analyzeStock_begin,
      analyzeStock_resume, analyzeStock_try, displayResults, loadMetrics_begin,
      loadNews_begin, loadMetrics_metrics, loadMetrics_analysis, loadMetrics_catch,
      loadNews_resume, periodBtn_click, loadChart_begin, compareStocks_begin,
      compareStocks_resume, displayComparison;
    handler_cases; page; congruence.
Qed.

Lemma page_invariant_run (actions : list action) (s : Page) :
  page_invariant s -> page_invariant (run actions s).
Proof.
  revert s. induction actions as [|a actions IH]; intros s H; [exact H|].
  cbn [run fold_left]. apply IH, page_invariant_act, H.
Qed.

(** X12. Whatever the listeners, the user and the network do, in whatever
    order, starting from the freshly loaded page: at most one chart instance
    is live, and none while [currentChart] is null; and [currentChart], when
    set, names an instance that was constructed.  Only [loadChart] ever
    touches the chart instances. *)
Theorem page_invariants (actions : list action) :
  live_charts (run actions freshPage) <= 1
  /\ (currentChart (run actions freshPage) = None -> live_charts (run actions freshPage) = 0)
  /\ (forall id, currentChart (run actions freshPage) = Some id ->
                 id < List.length (charts (run actions freshPage)))
  /\ (forall (a : action) (s : Page),
        (forall r, a <> ChartSettled r) ->
        charts (act s a) = charts s /\ currentChart (act s a) = currentChart s).
Proof.
  assert (H : page_invariant (run actions freshPage)).
  { apply page_invariant_run. split; [exact chart_invariant_fresh | discriminate]. }
  destruct H as (Hc & Hid).
  split; [now apply chart_invariant_live|]. split; [|split; [assumption|]].
  - intros E. unfold chart_invariant in Hc. rewrite E in Hc.
    unfold live_charts. now rewrite Hc.
  - intros a s Hne. destruct a; cbn [act];
      try (exfalso; eapply Hne; reflexivity);
      unfold loadTrendingStocks_begin, loadTrendingStocks_resume, type_stockInput,
        type_compareInputs, stockInput_keypress, quickAnalyze, analyzeStock_begin,
        analyzeStock_resume, analyzeStock_try, displayResults, loadMetrics_begin,
        loadNews_begin, loadMetrics_metrics, loadMetrics_analysis, loadMetrics_catch,
        loadNews_resume, periodBtn_click, loadChart_begin, compareStocks_begin,
        compareStocks_resume, displayComparison;
      handler_cases; page; split; congruence.
Qed.

Example run_example :
  let s := run [ PageLoaded; SearchTyped "tcs"; AnalyzeClicked;
                 LookupSettled "tcs" (Some {| ok := true; json := Some sample_analysis |});
                 ChartSettled (Some {| ok := true; json := Some {| Series.data := Some [] |} |});
                 PeriodClicked (Some "1y");
                 ChartSettled (Some {| ok := true; json := Some {| Series.data := Some [] |} |}) ]
             freshPage in
  currentSymbol s = Some "TCS" /\ currentChart s = Some 1 /\ live_charts s = 1
  /\ activePeriod s = Some "1y"
  /\ filter is_fetch (log s)
     = [ Fetch "GET" "http://localhost:8000/api/trending" None;
         Fetch "GET" "http://localhost:8000/api/analyze/tcs" None;
         Fetch "GET" "http://localhost:8000/api/metrics/TCS" None;
         Fetch "GET" "http://localhost:8000/api/chart/TCS/6mo" None;
         Fetch "GET" "http://localhost:8000/api/news/Tata%20Consultancy%20Services" None;
         Fetch "GET" "http://localhost:8000/api/chart/TCS/1y" None ].
Proof. repeat split. Qed.

(** ** Metrics: the number of rows *)

Lemma count_metric_item (label cls : string) (value : html) :
  count_lit metric_item_open value = 0 ->
  count_lit metric_item_open (metric_item label cls value) = 1.
Proof.
  intros H. unfold metric_item. rewrite !count_lit_app, H. reflexivity.
Qed.

Lemma count_plus_sign (x : float) : count_lit metric_item_open (plus_sign x) = 0.
Proof. unfold plus_sign. destruct (0 <=? x)%float; reflexivity. Qed.

Lemma count_formatMarketCap (x : float) : count_lit metric_item_open (formatMarketCap x) = 0.
Proof.
  unfold formatMarketCap.
  destruct (1e12 <=? x)%float; [reflexivity|].
  destruct (1e9 <=? x)%float; [reflexivity|].
  destruct (1e6 <=? x)%float; reflexivity.
Qed.

Ltac no_item :=
  intros;
  repeat first
    [ reflexivity
    | rewrite count_plus_sign
    | rewrite count_formatMarketCap
    | rewrite count_lit_app
    | progress cbn [List.concat formatNumber Nat.add] ].

Lemma count_optional_row (label : string) (v : option float) (value : float -> html) :
  (forall x, count_lit metric_item_open (value x) = 0) ->
  count_lit metric_item_open (optional_row v (fun x => metric_item label "" (value x)))
  = if present v then 1 else 0.
Proof.
  intros H. unfold optional_row, present. destruct v as [x|]; [|reflexivity].
  destruct (truthy x); [|reflexivity]. apply count_metric_item, H.
Qed.

Lemma count_rows_app (label : string) (a b : html) :
  count_rows label (a ++ b)%list = count_rows label a + count_rows label b.
Proof. apply count_lit_app. Qed.

Lemma count_rows_plus_sign (label : string) (x : float) : count_rows label (plus_sign x) = 0.
Proof. unfold plus_sign. destruct (0 <=? x)%float; reflexivity. Qed.

Lemma count_rows_formatMarketCap (label : string) (x : float) :
  count_rows label (formatMarketCap x) = 0.
Proof.
  unfold formatMarketCap.
  destruct (1e12 <=? x)%float; [reflexivity|].
  destruct (1e9 <=? x)%float; [reflexivity|].
  destruct (1e6 <=? x)%float; reflexivity.
Qed.

Lemma lit_eqb_metric_label (label label' : string) :
  lit_eqb (metric_label_text label) (metric_label label') = (label' =? label).
Proof.
  unfold lit_eqb, metric_label, metric_label_text.
  destruct (String.eqb_spec label' label) as [->|Hne]; [apply String.eqb_refl|].
  apply String.eqb_neq. intros H. apply Hne.
  do 3 apply append_cancel_l in H. apply append_cancel_r in H. exact H.
Qed.

Lemma count_rows_metric_item (label label' cls : string) (value : html) :
  count_rows label value = 0 ->
  count_rows label (metric_item label' cls value) = if label' =? label then 1 else 0.
Proof.
  intros H. unfold metric_item. rewrite !count_rows_app, H.
  unfold count_rows, count_lit. cbn [filter]. rewrite lit_eqb_metric_label.
  replace (lit_eqb (metric_label_text label) (Lit ("<div class=" ++ q "metric-item" ++ ">")))
    with false by reflexivity.
  replace (lit_eqb (metric_label_text label)
             (Lit ("<span class=" ++ q ("metric-value" ++ cls) ++ ">")))
    with false by reflexivity.
  replace (lit_eqb (metric_label_text label) (Lit "</span></div>")) with false by reflexivity.
  destruct (label' =? label); reflexivity.
Qed.

Lemma count_rows_optional_row (label label' : string) (v : option float)
    (value : float -> html) :
  (forall x, count_rows label (value x) = 0) ->
  count_rows label (optional_row v (fun x => metric_item label' "" (value x)))
  = if (label' =? label) && present v then 1 else 0.
Proof.
  intros H. unfold optional_row, present. destruct v as [x|]; [|now rewrite andb_false_r].
  destruct (truthy x); [|now rewrite andb_false_r].
  rewrite andb_true_r. apply count_rows_metric_item, H.
Qed.

Ltac no_label :=
  intros;
  repeat first
    [ reflexivity
    | rewrite count_rows_plus_sign
    | rewrite count_rows_formatMarketCap
    | rewrite count_rows_app
    | progress cbn [List.concat formatNumber Nat.add] ].

(** The rows with a given label, for any label. *)
Lemma count_rows_metrics_block (label : string) (data : Metrics.t) (analysisData : Analysis.t) :
  count_rows label (metrics_block data analysisData)
  = (if "Current Price" =? label then 1 else 0)
    + ((if "Today's Change" =? label then 1 else 0)
       + ((if "6-Month Change" =? label then 1 else 0)
          + ((if ("52-Week High" =? label) && present (Metrics.high_52w data) then 1 else 0)
             + ((if ("52-Week Low" =? label) && present (Metrics.low_52w data) then 1 else 0)
                + ((if ("Market Cap" =? label) && present (Metrics.market_cap data)
                    then 1 else 0)
                   + ((if ("Volume" =? label) && present (Metrics.volume data) then 1 else 0)
                      + ((if ("P/E Ratio" =? label) && present (Metrics.pe_ratio data)
                          then 1 else 0)
                         + (if "Sentiment Score" =? label then 1 else 0)))))))).
Proof.
  unfold metrics_block. cbn [List.concat]. rewrite !count_rows_app.
  rewrite !count_rows_metric_item by no_label.
  rewrite !count_rows_optional_row by no_label.
  replace (count_rows label _) with 0 by reflexivity.
  now rewrite !Nat.add_0_r.
Qed.

Lemma count_items_metrics_block (data : Metrics.t) (analysisData : Analysis.t) :
  count_lit metric_item_open (metrics_block data analysisData)
  = 4 + List.length
          (filter present
             [ Metrics.high_52w data; Metrics.low_52w data; Metrics.market_cap data;
               Metrics.volume data; Metrics.pe_ratio data ]).
Proof.
  unfold metrics_block. cbn [List.concat]. rewrite !count_lit_app.
  rewrite !count_metric_item by no_item.
  rewrite !count_optional_row by no_item.
  cbn [filter].
  destruct (present (Metrics.high_52w data)), (present (Metrics.low_52w data)),
    (present (Metrics.market_cap data)), (present (Metrics.volume data)),
    (present (Metrics.pe_ratio data)); reflexivity.
Qed.

(** X15. The metrics block holds exactly one row for each of the labels
    Current Price, Today's Change, 6-Month Change and Sentiment Score;
    for each of the labels 52-Week High, 52-Week Low, Market Cap, Volume and
    P/E Ratio exactly one row when its field is present and not zero and none
    otherwise; and no row with any other label.  In all it has four rows
    and one more for each such optional field, between four and nine. *)
Theorem metrics_block_rows (data : Metrics.t) (analysisData : Analysis.t) :
  let block := metrics_block data analysisData in
  (count_rows "Current Price" block = 1 /\ count_rows "Today's Change" block = 1
   /\ count_rows "6-Month Change" block = 1 /\ count_rows "Sentiment Score" block = 1)
  /\ (count_rows "52-Week High" block = (if present (Metrics.high_52w data) then 1 else 0)
      /\ count_rows "52-Week Low" block = (if present (Metrics.low_52w data) then 1 else 0)
      /\ count_rows "Market Cap" block = (if present (Metrics.market_cap data) then 1 else 0)
      /\ count_rows "Volume" block = (if present (Metrics.volume data) then 1 else 0)
      /\ count_rows "P/E Ratio" block = (if present (Metrics.pe_ratio data) then 1 else 0))
  /\ (forall label,
        ~ In label [ "Current Price"; "Today's Change"; "6-Month Change"; "52-Week High";
                     "52-Week Low"; "Market Cap"; "Volume"; "P/E Ratio"; "Sentiment Score" ] ->
        count_rows label block = 0)
  /\ count_lit metric_item_open block
     = 4 + List.length
             (filter present
                [ Metrics.high_52w data; Metrics.low_52w data; Metrics.market_cap data;
                  Metrics.volume data; Metrics.pe_ratio data ])
  /\ 4 <= count_lit metric_item_open block <= 9.
Proof.
  intros block. subst block.
  split; [|split; [|split; [|split]]].
  - repeat split; rewrite count_rows_metrics_block; reflexivity.
  - repeat split; rewrite count_rows_metrics_block;
      cbn [String.eqb Ascii.eqb Bool.eqb andb Nat.add];
      match goal with |- context [present ?v] => destruct (present v) end; reflexivity.
  - intros label Hnot. rewrite count_rows_metrics_block.
    cbn [In] in Hnot.
    repeat match goal with
           | |- context [?l =? label] =>
               let E := fresh "E" in
               destruct (String.eqb_spec l label) as [E|E]; [exfalso; apply Hnot; tauto|]
           end.
    reflexivity.
  - apply count_items_metrics_block.
  - rewrite count_items_metrics_block.
    pose proof (filter_length_le present
                  [ Metrics.high_52w data; Metrics.low_52w data; Metrics.market_cap data;
                    Metrics.volume data; Metrics.pe_ratio data ]) as Hle.
    cbn [List.length] in Hle. lia.
Qed.

Example metrics_block_rows_sample :
  count_lit metric_item_open (metrics_block sample_metrics sample_analysis) = 7
  /\ count_rows "Volume" (metrics_block sample_metrics sample_analysis) = 0
  /\ count_rows "P/E Ratio" (metrics_block sample_metrics sample_analysis) = 1.
Proof. repeat split. Qed.
